(** * floss/identification_manager.py: evidence merging, weighting and ranking

    A shallow embedding of [IdentificationManager] and of
    [identify_decoding_functions].  Python values are modelled as follows:

    - [int] addresses are [Z]; [str] plugin names are [string];
    - [float] metrics, weights and scores are binary64 primitive floats;
    - a [dict] is an insertion-ordered association list ([PyDict]): an
      assignment to an existing key keeps the key's position, an assignment to
      a new key appends it;
    - the manager object is a record, mutated through a state-and-exception
      monad [M]; a raised exception leaves the state as it was at the [raise]. *)

From Stdlib Require Import List ZArith String Bool Lia Floats Sorted Permutation.
Import ListNotations.

Set Warnings "-inexact-float".
Set Implicit Arguments.

(** ** Keys of a dict: hashable values with a decidable equality *)

Class PyKey (K : Type) := {
  key_eqb : K -> K -> bool;
  key_eqb_spec : forall a b : K, reflect (a = b) (key_eqb a b)
}.

#[global] Instance PyKey_int : PyKey Z :=
  {| key_eqb := Z.eqb; key_eqb_spec := Z.eqb_spec |}.

#[global] Instance PyKey_str : PyKey string :=
  {| key_eqb := String.eqb; key_eqb_spec := String.eqb_spec |}.

(** ** Insertion-ordered dictionaries *)

Module PyDict.

Definition dict (K V : Type) : Type := list (K * V).

Section Ops.
Context {K V : Type} {HK : PyKey K}.

(** [{}] *)
Definition empty : dict K V := [].

(** [d.get(k)]: the value of the first (and, in a well-formed dict, only)
    binding of [k]. *)
Fixpoint get (d : dict K V) (k : K) : option V :=
  match d with
  | [] => None
  | (k', v) :: d' => if key_eqb k' k then Some v else get d' k
  end.

(** [k in d] *)
Definition contains (d : dict K V) (k : K) : bool :=
  match get d k with Some _ => true | None => false end.

(** [d[k] = v]: overwrite in place, or append. *)
Fixpoint set (d : dict K V) (k : K) (v : V) : dict K V :=
  match d with
  | [] => [(k, v)]
  | (k', v') :: d' =>
      if key_eqb k' k then (k', v) :: d' else (k', v') :: set d' k v
  end.

(** [list(d)], [d.keys()] *)
Definition keys (d : dict K V) : list K := map fst d.

(** [d.items()] *)
Definition items (d : dict K V) : list (K * V) := d.

(** [len(d)] *)
Definition len (d : dict K V) : nat := List.length d.

(** [bool(d)] *)
Definition truthy (d : dict K V) : bool :=
  match d with [] => false | _ :: _ => true end.

(** Every key is bound once: the invariant of a Python dict. *)
Definition wf (d : dict K V) : Prop := NoDup (keys d).

End Ops.

End PyDict.

Import PyDict.

(** ** Exceptions *)

Inductive PyExc : Type :=
| Exception (msg : string)          (* [raise Exception(msg)] *)
| KeyError                          (* [d[k]] on a missing key *)
| AttributeError                    (* attribute access on [None] *)
| OtherError (cls msg : string).    (* anything else a plugin raises *)

(** ** Python's [sorted(l, key=..., reverse=...)] on float keys

    [sorted] is stable and compares keys with [<] only; with [reverse=True]
    the order is descending and entries with equal keys still keep their
    original relative order.  The model is the stable insertion sort: an entry
    is moved behind the entries of the already sorted tail that must come
    strictly before it.  For keys that [<] orders totally (no NaN) this is the
    only list that is stable and sorted, hence the list Python returns.  With
    a NaN among the keys the list Python returns depends on the steps of its
    sort and need not be this one; the two agree when no entry of the input is
    less than the entry after it, as Python then leaves the input as it is. *)

Definition goes_before (reverse : bool) (a b : float) : bool :=
  if reverse then PrimFloat.ltb b a else PrimFloat.ltb a b.

Fixpoint sorted_insert {A : Type} (key : A -> float) (reverse : bool)
    (x : A) (l : list A) : list A :=
  match l with
  | [] => [x]
  | y :: l' =>
      if goes_before reverse (key y) (key x)
      then y :: sorted_insert key reverse x l'
      else x :: y :: l'
  end.

Definition sorted {A : Type} (key : A -> float) (reverse : bool)
    (l : list A) : list A :=
  fold_right (sorted_insert key reverse) [] l.

(** [operator.itemgetter(1)] on a pair *)
Definition itemgetter_1 {A B : Type} (p : A * B) : B := snd p.

(** [l[:n]] for an [int] [n]: a negative [n] counts from the end. *)
Definition slice_to {A : Type} (l : list A) (n : Z) : list A :=
  if (n <? 0)%Z
  then firstn (Z.to_nat (Z.max 0 (Z.of_nat (List.length l) + n))) l
  else firstn (Z.to_nat n) l.

(** ** The manager object, plugins and the monad of method bodies *)

Definition CandidateEntry : Type := dict string float.
Definition CandidateStore : Type := dict Z CandidateEntry.
Definition PluginResult : Type := option (dict Z float).

(** [bool(plugin_candidates)]: [None] and [{}] are falsy. *)
Definition result_truthy (r : PluginResult) : bool :=
  match r with None => false | Some d => truthy d end.

(** A call into a plugin, recorded in the order the calls are made. *)
Inductive PluginCall : Type :=
| CallIdentify (plugin : string)
| CallScore (plugin : string).

Section Manager.
Variable Workspace : Type.

(** A plugin object: [str(plugin)] and its two operations, either of which
    returns a mapping (or [None]) or raises. *)
Record Plugin : Type := {
  plugin_str : string;
  plugin_identify : Workspace -> list Z -> PyExc + PluginResult;
  plugin_score : PluginResult -> Workspace -> PyExc + PluginResult
}.

(** The attributes set by [__init__]. *)
Record IdentificationManager : Type := {
  vw : Workspace;
  candidate_functions : CandidateStore;
  candidates_weighted : option (dict Z float)
}.

(** [IdentificationManager(vw)] *)
Definition init (vw0 : Workspace) : IdentificationManager :=
  {| vw := vw0; candidate_functions := empty; candidates_weighted := None |}.

(** What a method body reads and writes: the manager object [self], and the
    calls made into plugins so far.  The list of calls is no attribute of the
    manager; it records which plugin operations a run has invoked. *)
Record World : Type := {
  self : IdentificationManager;
  calls : list PluginCall
}.

(** The world in which [identify_decoding_functions] creates its manager. *)
Definition fresh (vw0 : Workspace) : World :=
  {| self := init vw0; calls := [] |}.

Definition M (A : Type) : Type := World -> (PyExc + A) * World.

Definition ret {A : Type} (a : A) : M A := fun w => (inr a, w).

Definition raise {A : Type} (e : PyExc) : M A := fun w => (inl e, w).

Definition bind {A B : Type} (m : M A) (f : A -> M B) : M B :=
  fun w =>
    match m w with
    | (inl e, w') => (inl e, w')
    | (inr a, w') => f a w'
    end.

Definition get_self : M IdentificationManager := fun w => (inr (self w), w).

Definition put_self (s : IdentificationManager) : M unit :=
  fun w => (inr tt, {| self := s; calls := calls w |}).

Definition log_call (c : PluginCall) : M unit :=
  fun w => (inr tt, {| self := self w; calls := calls w ++ [c] |}).

(** A value a callee returned or an exception it raised. *)
Definition lift_outcome {A : Type} (r : PyExc + A) : M A :=
  match r with inl e => raise e | inr a => ret a end.

(** [for x in l: body(x)] *)
Fixpoint for_each {A : Type} (l : list A) (body : A -> M unit) : M unit :=
  match l with
  | [] => ret tt
  | x :: l' => bind (body x) (fun _ => for_each l' body)
  end.

(** [for x in l: acc = body(acc, x)], for a local variable [acc]. *)
Fixpoint for_fold {A B : Type} (l : list A) (acc : B)
    (body : B -> A -> M B) : M B :=
  match l with
  | [] => ret acc
  | x :: l' => bind (body acc x) (fun acc' => for_fold l' acc' body)
  end.

(** [d[k]] as an expression *)
Definition getitem {K V : Type} {HK : PyKey K} (d : dict K V) (k : K) : M V :=
  match get d k with
  | Some v => ret v
  | None => raise KeyError
  end.

End Manager.

Arguments ret {Workspace A} a.
Arguments raise {Workspace A} e.
Arguments get_self {Workspace}.
Arguments getitem {Workspace K V HK} d k.
Arguments lift_outcome {Workspace A} r.
Arguments log_call {Workspace} c.

Declare Scope py_scope.
Delimit Scope py_scope with py.
Notation "x <- m ;; k" := (bind m (fun x => k))
  (at level 61, m at next level, right associativity) : py_scope.
Notation "m ;; k" := (bind m (fun _ => k))
  (at level 61, right associativity) : py_scope.
Open Scope py_scope.
Open Scope string_scope.

(** ** IdentificationManager *)

(** [PLUGIN_WEIGHTS] *)
Definition PLUGIN_WEIGHTS : dict string float :=
  [ ("XORPlugin", 0.5%float);
    ("ShiftPlugin", 0.5%float);
    ("MovPlugin", 0.3%float);
    ("FunctionCrossReferencesToPlugin", 0.2%float);
    ("FunctionArgumentCountPlugin", 0.2%float);
    ("FunctionBlockCountPlugin", 0.025%float);
    ("FunctionInstructionCountPlugin", 0.025%float);
    ("FunctionSizePlugin", 0.025%float);
    ("FunctionRecursivePlugin", 0.025%float);
    ("FunctionIsThunkPlugin", (-1.0)%float);
    ("FunctionIsLibraryPlugin", (-1.0)%float) ].

Section Methods.
Variable Workspace : Type.
Local Abbreviation M := (M Workspace).

(** [self.candidate_functions = s] *)
Definition set_candidate_functions (s : CandidateStore) : M unit :=
  me <- get_self ;;
  put_self {| vw := vw me; candidate_functions := s;
              candidates_weighted := candidates_weighted me |}.

(** [self.candidates_weighted = fw] *)
Definition set_candidates_weighted (fw : dict Z float) : M unit :=
  me <- get_self ;;
  put_self {| vw := vw me; candidate_functions := candidate_functions me;
              candidates_weighted := Some fw |}.

(** [self.candidate_functions[f][plugin_name] = v]: the entry of [f] is
    updated in place, so it keeps its position in the store. *)
Definition store_entry_setitem (f : Z) (plugin_name : string) (v : float)
    : M unit :=
  me <- get_self ;;
  entry <- getitem (candidate_functions me) f ;;
  set_candidate_functions
    (set (candidate_functions me) f (set entry plugin_name v)).

(** [self.candidate_functions[f] = {}] *)
Definition store_setitem_empty (f : Z) : M unit :=
  me <- get_self ;;
  set_candidate_functions (set (candidate_functions me) f empty).

(** The call returns the store for a falsy argument and [None] otherwise;
    no caller in this file uses the returned value. *)
Definition merge_candidates (plugin_name : string)
    (plugin_candidates : PluginResult) : M (option CandidateStore) :=
  if negb (result_truthy plugin_candidates) then
    me <- get_self ;;
    ret (Some (candidate_functions me))
  else
    match plugin_candidates with
    | None => ret None
    | Some pc =>
        for_each (keys pc) (fun candidate_function =>
          me <- get_self ;;
          if contains (candidate_functions me) candidate_function then
            v <- getitem pc candidate_function ;;
            store_entry_setitem candidate_function plugin_name v
          else
            store_setitem_empty candidate_function ;;
            v <- getitem pc candidate_function ;;
            store_entry_setitem candidate_function plugin_name v) ;;
        ret None
    end.

Definition run_plugins (plugins : list (Plugin Workspace))
    (functions : list Z) (raw_data : bool) : M unit :=
  for_each plugins (fun plugin =>
    me <- get_self ;;
    log_call (CallIdentify (plugin_str plugin)) ;;
    decoder_candidates <- lift_outcome (plugin_identify plugin (vw me) functions) ;;
    if raw_data then
      merge_candidates (plugin_str plugin) decoder_candidates ;;
      ret tt
    else
      me' <- get_self ;;
      log_call (CallScore (plugin_str plugin)) ;;
      scored_candidates <-
        lift_outcome (plugin_score plugin decoder_candidates (vw me')) ;;
      merge_candidates (plugin_str plugin) scored_candidates ;;
      ret tt).

Definition apply_plugin_weights : M unit :=
  me <- get_self ;;
  functions_weighted <-
    for_fold (items (candidate_functions me)) empty
      (fun functions_weighted item =>
         let (candidate_function, plugin_score) := item in
         total_score <-
           for_fold (items plugin_score) 0%float
             (fun total_score item' =>
                let (plugin_name, score) := item' in
                if negb (contains PLUGIN_WEIGHTS plugin_name) then
                  raise (Exception ("Plugin weight not found: " ++ plugin_name))
                else
                  w <- getitem PLUGIN_WEIGHTS plugin_name ;;
                  ret (total_score + w * score)%float) ;;
         ret (set functions_weighted candidate_function total_score)) ;;
  set_candidates_weighted functions_weighted.

Definition sort_candidates_by_score : M (list (Z * float)) :=
  me <- get_self ;;
  match candidates_weighted me with
  | None => raise AttributeError
  | Some cw => ret (sorted itemgetter_1 true (items cw))
  end.

Definition get_top_candidate_functions (n : Z) : M (list (Z * float)) :=
  ranked <- sort_candidates_by_score ;;
  ret (map (fun p => (fst p, snd p)) (slice_to ranked n)).

Definition get_candidate_functions : M CandidateStore :=
  me <- get_self ;;
  ret (candidate_functions me).

(** The plugin classes of [floss.plugins], instantiated. *)
Record PluginClasses : Type := {
  FunctionCrossReferencesToPlugin : Plugin Workspace;
  FunctionArgumentCountPlugin : Plugin Workspace;
  FunctionIsThunkPlugin : Plugin Workspace;
  FunctionBlockCountPlugin : Plugin Workspace;
  FunctionInstructionCountPlugin : Plugin Workspace;
  FunctionSizePlugin : Plugin Workspace;
  FunctionRecursivePlugin : Plugin Workspace;
  FunctionIsLibraryPlugin : Plugin Workspace;
  XORPlugin : Plugin Workspace;
  ShiftPlugin : Plugin Workspace;
  MovPlugin : Plugin Workspace
}.

Definition get_all_plugins (P : PluginClasses) : list (Plugin Workspace) :=
  [ FunctionCrossReferencesToPlugin P;
    FunctionArgumentCountPlugin P;
    FunctionIsThunkPlugin P;
    FunctionBlockCountPlugin P;
    FunctionInstructionCountPlugin P;
    FunctionSizePlugin P;
    FunctionRecursivePlugin P;
    FunctionIsLibraryPlugin P;
    XORPlugin P;
    ShiftPlugin P;
    MovPlugin P ].

(** The body of [identify_decoding_functions] once the manager exists. *)
Definition identify_body (P : PluginClasses) (functions : list Z)
    (count : Z) : M (list (Z * float)) :=
  run_plugins (get_all_plugins P) functions false ;;
  apply_plugin_weights ;;
  get_top_candidate_functions count.

(** [identify_decoding_functions(vw, functions, count)]: what the call
    returns or raises, with the manager and the plugin calls it leaves. *)
Definition identify_decoding_functions (P : PluginClasses) (vw0 : Workspace)
    (functions : list Z) (count : Z)
    : (PyExc + list (Z * float)) * World Workspace :=
  identify_body P functions count (fresh vw0).

End Methods.

Arguments set_candidate_functions {Workspace} s.
Arguments set_candidates_weighted {Workspace} fw.
Arguments store_entry_setitem {Workspace} f plugin_name v.
Arguments store_setitem_empty {Workspace} f.
Arguments merge_candidates {Workspace} plugin_name plugin_candidates.
Arguments run_plugins {Workspace} plugins functions raw_data.
Arguments apply_plugin_weights {Workspace}.
Arguments sort_candidates_by_score {Workspace}.
Arguments get_top_candidate_functions {Workspace} n.
Arguments get_candidate_functions {Workspace}.
Arguments get_all_plugins {Workspace} P.
Arguments identify_body {Workspace} P functions count.
Arguments identify_decoding_functions {Workspace} P vw0 functions count.

(** ** What a method call does to the world *)

(** The world after running [m]. *)
Definition exec {Workspace A : Type} (m : M Workspace A) (w : World Workspace)
    : World Workspace := snd (m w).

(** What [m] returned or raised. *)
Definition outcome {Workspace A : Type} (m : M Workspace A)
    (w : World Workspace) : PyExc + A := fst (m w).

(** [self.candidate_functions] in a world *)
Definition store_of {Workspace : Type} (w : World Workspace) : CandidateStore :=
  candidate_functions (self w).

(** The world [w] with [self.candidate_functions] replaced. *)
Definition with_store {Workspace : Type} (w : World Workspace)
    (s : CandidateStore) : World Workspace :=
  {| self := {| vw := vw (self w); candidate_functions := s;
                candidates_weighted := candidates_weighted (self w) |};
     calls := calls w |}.

(** The world [w] with [self.candidates_weighted] replaced. *)
Definition with_weighted {Workspace : Type} (w : World Workspace)
    (fw : dict Z float) : World Workspace :=
  {| self := {| vw := vw (self w);
                candidate_functions := candidate_functions (self w);
                candidates_weighted := Some fw |};
     calls := calls w |}.

(** [store[f][q]] when both keys are present, as [store.get(f, {}).get(q)] *)
Definition metric_of (s : CandidateStore) (f : Z) (q : string) : option float :=
  match get s f with
  | Some entry => get entry q
  | None => None
  end.

(** One round of the loop of [merge_candidates], as a function on stores. *)
Definition merge_step (plugin_name : string) (pc : dict Z float)
    (s : CandidateStore) (f : Z) : CandidateStore :=
  match get pc f with
  | None => s
  | Some v =>
      match get s f with
      | Some entry => set s f (set entry plugin_name v)
      | None => set s f (set empty plugin_name v)
      end
  end.

(** The store [merge_candidates] leaves, as a function on stores. *)
Definition merged (plugin_name : string) (r : PluginResult)
    (s : CandidateStore) : CandidateStore :=
  match r with
  | None => s
  | Some pc => fold_left (merge_step plugin_name pc) (keys pc) s
  end.

(** [r[f]] for a result mapping, when [r] is a mapping that binds [f] *)
Definition result_get (r : PluginResult) (f : Z) : option float :=
  match r with
  | Some pc => get pc f
  | None => None
  end.

(** Two stores bind the same addresses, and every address to entries that bind
    the same plugin names to the same metrics (the order of keys apart). *)
Definition store_equiv (s1 s2 : CandidateStore) : Prop :=
  forall f : Z,
    match get s1 f, get s2 f with
    | Some e1, Some e2 => forall q : string, get e1 q = get e2 q
    | None, None => True
    | _, _ => False
    end.

(** *** The loops of [apply_plugin_weights], read as functions *)

(** The plugin name of an item has no weight. *)
Definition unknown_plugin (item : string * float) : bool :=
  negb (contains PLUGIN_WEIGHTS (fst item)).

(** The first plugin name of an entry, in iteration order, without a weight. *)
Definition first_unknown_in (entry : CandidateEntry) : option string :=
  option_map fst (find unknown_plugin (items entry)).

(** The first plugin name without a weight that the two nested loops meet. *)
Fixpoint first_unknown (s : CandidateStore) : option string :=
  match s with
  | [] => None
  | (_, entry) :: s' =>
      match first_unknown_in entry with
      | Some p => Some p
      | None => first_unknown s'
      end
  end.

(** Every plugin name in the store has a weight. *)
Definition store_known (s : CandidateStore) : bool :=
  forallb (fun fe => forallb (fun item => contains PLUGIN_WEIGHTS (fst item))
                             (items (snd fe)))
          (items s).

(** [total_score] after the inner loop, when every name has a weight. *)
Fixpoint entry_total (total : float) (entry : list (string * float))
    : option float :=
  match entry with
  | [] => Some total
  | (p, m) :: entry' =>
      match get PLUGIN_WEIGHTS p with
      | Some wt => entry_total (total + wt * m)%float entry'
      | None => None
      end
  end.

(** [functions_weighted] after the outer loop, when every name has a weight. *)
Fixpoint weighted_from (fw : dict Z float) (s : list (Z * CandidateEntry))
    : option (dict Z float) :=
  match s with
  | [] => Some fw
  | (f, entry) :: s' =>
      match entry_total 0%float entry with
      | Some t => weighted_from (set fw f t) s'
      | None => None
      end
  end.

(** [0.0 + w1 * m1 + ... + wn * mn], summed from the left. *)
Definition sum_of_products (ws ms : list float) : float :=
  fold_left (fun total t => (total + fst t * snd t)%float) (combine ws ms) 0%float.

(** The message of the exception raised for a plugin name without a weight. *)
Definition weight_not_found (plugin_name : string) : PyExc :=
  Exception ("Plugin weight not found: " ++ plugin_name).

(** *** One round of [run_plugins], read as functions *)

Section Rounds.
Variable Workspace : Type.

(** The calls a round makes into a plugin that raises nothing. *)
Definition plugin_calls (raw_data : bool) (p : Plugin Workspace)
    : list PluginCall :=
  if raw_data then [CallIdentify (plugin_str p)]
  else [CallIdentify (plugin_str p); CallScore (plugin_str p)].

(** The exception a round raises, with the calls made up to the raise, when
    [identify] or (unless [raw_data]) [score] raises. *)
Definition plugin_raises (raw_data : bool) (p : Plugin Workspace)
    (vw0 : Workspace) (functions : list Z)
    : option (PyExc * list PluginCall) :=
  match plugin_identify p vw0 functions with
  | inl e => Some (e, [CallIdentify (plugin_str p)])
  | inr decoder_candidates =>
      if raw_data then None
      else
        match plugin_score p decoder_candidates vw0 with
        | inl e => Some (e, [CallIdentify (plugin_str p);
                             CallScore (plugin_str p)])
        | inr _ => None
        end
  end.

(** The mapping a round merges when the plugin raises nothing. *)
Definition plugin_result (raw_data : bool) (p : Plugin Workspace)
    (vw0 : Workspace) (functions : list Z) : PluginResult :=
  match plugin_identify p vw0 functions with
  | inl _ => None
  | inr decoder_candidates =>
      if raw_data then decoder_candidates
      else
        match plugin_score p decoder_candidates vw0 with
        | inl _ => None
        | inr scored_candidates => scored_candidates
        end
  end.

(** The world [w] with further plugin calls recorded. *)
Definition add_calls (w : World Workspace) (cs : list PluginCall)
    : World Workspace :=
  {| self := self w; calls := calls w ++ cs |}.

End Rounds.

(** *** Ranked sequences *)

(** Every later pair has a score less than or equal to every earlier one. *)
Definition descending (l : list (Z * float)) : Prop :=
  StronglySorted (fun a b => (snd b <=? snd a)%float = true) l.

(** No score of the mapping is NaN, so [<] orders the scores totally. *)
Definition scores_not_nan (cw : dict Z float) : Prop :=
  Forall (fun item => is_nan (snd item) = false) (items cw).

(** The entries of a ranked sequence whose score equals [v], in order. *)
Definition with_score (v : float) (l : list (Z * float)) : list (Z * float) :=
  filter (fun item => (snd item =? v)%float) l.

(** [cw[f] == v], for an address [f] the mapping binds. *)
Definition has_score (cw : dict Z float) (v : float) (f : Z) : bool :=
  match get cw f with
  | Some t => (t =? v)%float
  | None => false
  end.

(** *** Sample managers *)

Module Sample.

(** The store of three functions scored by three plugins. *)
Definition store : CandidateStore :=
  [ (0x401000%Z, [("XORPlugin", 1.0%float);
                  ("FunctionArgumentCountPlugin", 1.0%float)]);
    (0x402000%Z, [("XORPlugin", 0.0%float);
                  ("FunctionIsThunkPlugin", 1.0%float)]);
    (0x403000%Z, [("FunctionArgumentCountPlugin", 1.0%float)]) ].

(** A store in which the second function has a plugin without a weight. *)
Definition store_unknown : CandidateStore :=
  [ (0x401000%Z, [("XORPlugin", 1.0%float)]);
    (0x402000%Z, [("ShiftPlugin", 0.5%float);
                  ("EntropyPlugin", 1.0%float)]) ].

Definition world_of (s : CandidateStore) (cw : option (dict Z float))
    : World unit :=
  {| self := {| vw := tt; candidate_functions := s;
                candidates_weighted := cw |};
     calls := [] |}.

Definition world : World unit := world_of store None.

Definition world_unknown : World unit := world_of store_unknown None.

(** The scores of [store]: 0.5*1 + 0.2*1, 0.5*0 + (-1.0)*1 and 0.2*1. *)
Definition weighted : dict Z float :=
  [ (0x401000%Z, 0.7%float);
    (0x402000%Z, (-1.0)%float);
    (0x403000%Z, 0.2%float) ].

Definition world_weighted : World unit := world_of store (Some weighted).

(** A store whose first and third function get the same score, 0.5. *)
Definition store_ties : CandidateStore :=
  [ (0x401000%Z, [("XORPlugin", 1.0%float)]);
    (0x402000%Z, [("MovPlugin", 1.0%float)]);
    (0x403000%Z, [("ShiftPlugin", 1.0%float)]) ].

Definition weighted_ties : dict Z float :=
  [ (0x401000%Z, 0.5%float);
    (0x402000%Z, 0.3%float);
    (0x403000%Z, 0.5%float) ].

Definition world_ties : World unit := world_of store_ties None.

(** A plugin whose [identify] returns [r] and whose [score] returns its
    argument. *)
Definition constant_plugin (name : string) (r : dict Z float) : Plugin unit :=
  {| plugin_str := name;
     plugin_identify := fun _ _ => inr (Some r);
     plugin_score := fun raw _ => inr raw |}.

(** A plugin whose [identify] raises [e]. *)
Definition raising_plugin (name : string) (e : PyExc) : Plugin unit :=
  {| plugin_str := name;
     plugin_identify := fun _ _ => inl e;
     plugin_score := fun raw _ => inr raw |}.

(** Plugin classes under which three of the eleven plugins find something. *)
Definition classes : PluginClasses unit :=
  {| FunctionCrossReferencesToPlugin :=
       constant_plugin "FunctionCrossReferencesToPlugin" [];
     FunctionArgumentCountPlugin :=
       constant_plugin "FunctionArgumentCountPlugin"
         [(0x401000%Z, 1.0%float); (0x403000%Z, 1.0%float)];
     FunctionIsThunkPlugin :=
       constant_plugin "FunctionIsThunkPlugin" [(0x402000%Z, 1.0%float)];
     FunctionBlockCountPlugin := constant_plugin "FunctionBlockCountPlugin" [];
     FunctionInstructionCountPlugin :=
       constant_plugin "FunctionInstructionCountPlugin" [];
     FunctionSizePlugin := constant_plugin "FunctionSizePlugin" [];
     FunctionRecursivePlugin := constant_plugin "FunctionRecursivePlugin" [];
     FunctionIsLibraryPlugin := constant_plugin "FunctionIsLibraryPlugin" [];
     XORPlugin :=
       constant_plugin "XORPlugin"
         [(0x401000%Z, 1.0%float); (0x402000%Z, 0.0%float)];
     ShiftPlugin := constant_plugin "ShiftPlugin" [];
     MovPlugin := constant_plugin "MovPlugin" [] |}.

Definition functions : list Z := [0x401000%Z; 0x402000%Z; 0x403000%Z].

(** Plugin classes whose third plugin raises. *)
Definition classes_raising : PluginClasses unit :=
  {| FunctionCrossReferencesToPlugin :=
       FunctionCrossReferencesToPlugin classes;
     FunctionArgumentCountPlugin := FunctionArgumentCountPlugin classes;
     FunctionIsThunkPlugin :=
       raising_plugin "FunctionIsThunkPlugin"
         (OtherError "ValueError" "no such function");
     FunctionBlockCountPlugin := FunctionBlockCountPlugin classes;
     FunctionInstructionCountPlugin := FunctionInstructionCountPlugin classes;
     FunctionSizePlugin := FunctionSizePlugin classes;
     FunctionRecursivePlugin := FunctionRecursivePlugin classes;
     FunctionIsLibraryPlugin := FunctionIsLibraryPlugin classes;
     XORPlugin := XORPlugin classes;
     ShiftPlugin := ShiftPlugin classes;
     MovPlugin := MovPlugin classes |}.

(** The plugins of [classes_raising] before the raising one, the raising
    one, and those after it. *)
Definition before_raising : list (Plugin unit) :=
  firstn 2 (get_all_plugins classes_raising).

Definition raising : Plugin unit := FunctionIsThunkPlugin classes_raising.

Definition after_raising : list (Plugin unit) :=
  skipn 3 (get_all_plugins classes_raising).

(** The world once the plugins of [before_raising] have run. *)
Definition world_before_raise : World unit :=
  exec (run_plugins before_raising functions false) (fresh tt).

End Sample.

(** *** Invariants and observations of a run *)

(** An entry is a well-formed dict, binds at least one plugin name, and binds
    only names of [names]. *)
Definition entry_ok (names : list string) (entry : CandidateEntry) : Prop :=
  wf entry /\ entry <> [] /\ forall q, In q (keys entry) -> In q names.

(** The store is a well-formed dict of entries that are [entry_ok]. *)
Definition store_ok (names : list string) (s : CandidateStore) : Prop :=
  wf s /\ forall f entry, In (f, entry) s -> entry_ok names entry.

(** The addresses of a result mapping that the store does not bind yet, in
    the order of the mapping. *)
Definition new_addresses (s : CandidateStore) (r : PluginResult) : list Z :=
  match r with
  | None => []
  | Some pc => filter (fun f => negb (contains s f)) (keys pc)
  end.

(** A result is [None] or a well-formed dict. *)
Definition result_wf (r : PluginResult) : Prop :=
  match r with
  | None => True
  | Some pc => wf pc
  end.

(** The call is a call of [identify]. *)
Definition is_identify (c : PluginCall) : bool :=
  match c with
  | CallIdentify _ => true
  | CallScore _ => false
  end.

(** The store after the rounds of [plugins], none of which raises, in a
    manager whose workspace is [vw0]. *)
Definition store_after {Workspace : Type} (raw_data : bool) (vw0 : Workspace)
    (functions : list Z) (plugins : list (Plugin Workspace))
    (s : CandidateStore) : CandidateStore :=
  fold_left
    (fun s' q => merged (plugin_str q)
                   (plugin_result raw_data q vw0 functions) s')
    plugins s.

(** *** More sample plugin classes *)

Module SampleMore.

(** The classes of [Sample.classes] with every plugin replaced by [q]. *)
Definition all_same (q : Plugin unit) : PluginClasses unit :=
  {| FunctionCrossReferencesToPlugin := q;
     FunctionArgumentCountPlugin := q;
     FunctionIsThunkPlugin := q;
     FunctionBlockCountPlugin := q;
     FunctionInstructionCountPlugin := q;
     FunctionSizePlugin := q;
     FunctionRecursivePlugin := q;
     FunctionIsLibraryPlugin := q;
     XORPlugin := q;
     ShiftPlugin := q;
     MovPlugin := q |}.

(** Plugin classes under which no plugin finds anything. *)
Definition classes_silent : PluginClasses unit :=
  all_same (Sample.constant_plugin "MovPlugin" []).

(** A plugin whose name has no weight and which reports one function. *)
Definition entropy_plugin : Plugin unit :=
  Sample.constant_plugin "EntropyPlugin" [(0x401000%Z, 1.0%float)].

(** The classes of [Sample.classes] with the last plugin replaced by
    [entropy_plugin]. *)
Definition classes_unweighted : PluginClasses unit :=
  {| FunctionCrossReferencesToPlugin :=
       FunctionCrossReferencesToPlugin Sample.classes;
     FunctionArgumentCountPlugin := FunctionArgumentCountPlugin Sample.classes;
     FunctionIsThunkPlugin := FunctionIsThunkPlugin Sample.classes;
     FunctionBlockCountPlugin := FunctionBlockCountPlugin Sample.classes;
     FunctionInstructionCountPlugin :=
       FunctionInstructionCountPlugin Sample.classes;
     FunctionSizePlugin := FunctionSizePlugin Sample.classes;
     FunctionRecursivePlugin := FunctionRecursivePlugin Sample.classes;
     FunctionIsLibraryPlugin := FunctionIsLibraryPlugin Sample.classes;
     XORPlugin := XORPlugin Sample.classes;
     ShiftPlugin := ShiftPlugin Sample.classes;
     MovPlugin := entropy_plugin |}.

(** Two plugins in raw mode, the second of which raises. *)
Definition raw_plugins : list (Plugin unit) :=
  [ Sample.constant_plugin "XORPlugin" [(0x401000%Z, 3.0%float)];
    Sample.raising_plugin "MovPlugin" KeyError ].

End SampleMore.

(** *** Sample managers with a NaN score *)

Module SampleNaN.

(** The second function has an infinite metric under a plugin of positive
    weight and under one of negative weight. *)
Definition store : CandidateStore :=
  [ (0x401000%Z, [("FunctionArgumentCountPlugin", 5.0%float)]);
    (0x402000%Z, [("FunctionArgumentCountPlugin", infinity);
                  ("FunctionIsThunkPlugin", infinity)]);
    (0x403000%Z, [("FunctionArgumentCountPlugin", 10.0%float)]) ].

(** The scores of [store]: 0.2*5, 0.2*inf + (-1.0)*inf and 0.2*10. *)
Definition weighted : dict Z float :=
  [ (0x401000%Z, 1.0%float); (0x402000%Z, nan); (0x403000%Z, 2.0%float) ].

Definition world : World unit := Sample.world_of store None.

Definition world_weighted : World unit := Sample.world_of store (Some weighted).

(** The same with a fourth function whose score equals the first one's. *)
Definition store_ties : CandidateStore :=
  [ (0x401000%Z, [("XORPlugin", 2.0%float)]);
    (0x402000%Z, [("XORPlugin", infinity);
                  ("FunctionIsThunkPlugin", infinity)]);
    (0x403000%Z, [("XORPlugin", 10.0%float)]);
    (0x404000%Z, [("XORPlugin", 2.0%float)]) ].

Definition weighted_ties : dict Z float :=
  [ (0x401000%Z, 1.0%float); (0x402000%Z, nan); (0x403000%Z, 5.0%float);
    (0x404000%Z, 1.0%float) ].

Definition world_ties : World unit := Sample.world_of store_ties None.

(** Plugin classes under which the plugins report the metrics of [store]. *)
Definition classes : PluginClasses unit :=
  {| FunctionCrossReferencesToPlugin :=
       FunctionCrossReferencesToPlugin Sample.classes;
     FunctionArgumentCountPlugin :=
       Sample.constant_plugin "FunctionArgumentCountPlugin"
         [ (0x401000%Z, 5.0%float); (0x402000%Z, infinity);
           (0x403000%Z, 10.0%float) ];
     FunctionIsThunkPlugin :=
       Sample.constant_plugin "FunctionIsThunkPlugin"
         [(0x402000%Z, infinity)];
     FunctionBlockCountPlugin := FunctionBlockCountPlugin Sample.classes;
     FunctionInstructionCountPlugin :=
       FunctionInstructionCountPlugin Sample.classes;
     FunctionSizePlugin := FunctionSizePlugin Sample.classes;
     FunctionRecursivePlugin := FunctionRecursivePlugin Sample.classes;
     FunctionIsLibraryPlugin := FunctionIsLibraryPlugin Sample.classes;
     XORPlugin := Sample.constant_plugin "XORPlugin" [];
     ShiftPlugin := ShiftPlugin Sample.classes;
     MovPlugin := MovPlugin Sample.classes |}.

End SampleNaN.

(* ================================================================= *)
(** * Properties *)

Open Scope list_scope.

(** ** Dictionaries *)

Section DictFacts.
Context {K V : Type} {HK : PyKey K}.
Implicit Types (d : dict K V) (k : K) (v : V).

Lemma key_eqb_refl k : key_eqb k k = true.
Proof. destruct (key_eqb_spec k k); congruence. Qed.

Lemma key_eqb_neq k k' : k <> k' -> key_eqb k k' = false.
Proof. intros Hn. destruct (key_eqb_spec k k'); congruence. Qed.

Lemma get_set_same d k v : get (set d k v) k = Some v.
Proof.
  induction d as [|[k' v'] d IH]; simpl.
  - now rewrite key_eqb_refl.
  - destruct (key_eqb k' k) eqn:E; simpl; rewrite E; auto.
Qed.

Lemma get_set_other d k k' v : k <> k' -> get (set d k v) k' = get d k'.
Proof.
  intros Hn. induction d as [|[k0 v0] d IH]; simpl.
  - now rewrite key_eqb_neq.
  - destruct (key_eqb_spec k0 k) as [->|Hk]; simpl.
    + now rewrite key_eqb_neq.
    + now rewrite IH.
Qed.

Lemma get_None_keys d k : get d k = None <-> ~ In k (keys d).
Proof.
  induction d as [|[k0 v0] d IH]; simpl.
  - tauto.
  - destruct (key_eqb_spec k0 k) as [->|Hk].
    + split; [discriminate | tauto].
    + rewrite IH. tauto.
Qed.

Lemma get_Some_keys d k : In k (keys d) -> exists v, get d k = Some v.
Proof.
  intros Hin. destruct (get d k) as [v|] eqn:E; [eauto|].
  apply get_None_keys in E. contradiction.
Qed.

Lemma contains_keys d k : contains d k = true <-> In k (keys d).
Proof.
  unfold contains. destruct (get d k) as [v|] eqn:E.
  - split; [intros _|reflexivity].
    destruct (in_dec (fun a b => reflect_dec _ _ (key_eqb_spec a b)) k (keys d))
      as [Hin|Hni]; [assumption|].
    apply get_None_keys in Hni. congruence.
  - apply get_None_keys in E. split; [discriminate|contradiction].
Qed.

Lemma get_In d k v : get d k = Some v -> In (k, v) d.
Proof.
  induction d as [|[k0 v0] d IH]; simpl; [discriminate|].
  destruct (key_eqb_spec k0 k) as [->|Hk].
  - intros [= ->]. now left.
  - intros H. right. auto.
Qed.

Lemma In_get_wf d k v : wf d -> In (k, v) d -> get d k = Some v.
Proof.
  unfold wf. induction d as [|[k0 v0] d IH]; simpl; [tauto|].
  intros Hnd [[= -> ->]|Hin].
  - now rewrite key_eqb_refl.
  - inversion Hnd as [|? ? Hnotin Hnd']; subst.
    destruct (key_eqb_spec k0 k) as [->|Hk].
    + exfalso. apply Hnotin. change (In (fst (k, v)) (map fst d)).
      now apply in_map.
    + auto.
Qed.

Lemma keys_set d k v :
  keys (set d k v) = if contains d k then keys d else keys d ++ [k].
Proof.
  unfold contains. induction d as [|[k0 v0] d IH]; simpl; [reflexivity|].
  destruct (key_eqb_spec k0 k) as [->|Hk]; simpl; [reflexivity|].
  rewrite IH. now destruct (get d k).
Qed.

Lemma wf_set d k v : wf d -> wf (set d k v).
Proof.
  unfold wf. intros Hd. rewrite keys_set.
  destruct (contains d k) eqn:E; [assumption|].
  apply NoDup_app; [assumption | repeat constructor; simpl; tauto|].
  intros a Ha [<-|[]].
  apply contains_keys in Ha. congruence.
Qed.

Lemma set_set d k v v' : set (set d k v) k v' = set d k v'.
Proof.
  induction d as [|[k0 v0] d IH]; simpl.
  - now rewrite key_eqb_refl.
  - destruct (key_eqb k0 k) eqn:E; simpl; rewrite E; [reflexivity|].
    now rewrite IH.
Qed.

Lemma len_set_new d k v :
  contains d k = false -> len (set d k v) = S (len d).
Proof.
  unfold len, contains. induction d as [|[k0 v0] d IH]; simpl; [reflexivity|].
  destruct (key_eqb k0 k); [discriminate|].
  simpl. intros H. now rewrite IH.
Qed.

End DictFacts.

(** ** merge_candidates *)

Section MergeFacts.
Variable Workspace : Type.
Implicit Types (w : World Workspace) (s : CandidateStore) (p q : string).

Lemma with_store_same w : with_store w (store_of w) = w.
Proof. destruct w as [[v0 s0 c0] l0]; reflexivity. Qed.

Lemma store_of_with_store w s : store_of (with_store w s) = s.
Proof. reflexivity. Qed.

(** The loop of [merge_candidates] never raises and folds [merge_step]. *)
Lemma merge_loop_run p (pc : dict Z float) (ks : list Z) :
  (forall k, In k ks -> In k (keys pc)) ->
  forall w,
    for_each ks (fun candidate_function =>
      me <- get_self ;;
      if contains (candidate_functions me) candidate_function then
        v <- getitem pc candidate_function ;;
        store_entry_setitem candidate_function p v
      else
        store_setitem_empty candidate_function ;;
        v <- getitem pc candidate_function ;;
        store_entry_setitem candidate_function p v) w
    = (inr tt, with_store w (fold_left (merge_step p pc) ks (store_of w))).
Proof.
  set (body := fun candidate_function : Z => _).
  induction ks as [|k ks IH]; intros Hks w; simpl.
  - now rewrite with_store_same.
  - destruct (get_Some_keys pc k (Hks k (or_introl eq_refl))) as [v Hv].
    assert (Hb : body k w
                 = (inr tt, with_store w (merge_step p pc (store_of w) k))).
    { unfold body, merge_step, store_of, contains.
      unfold store_entry_setitem, store_setitem_empty, set_candidate_functions.
      unfold bind, get_self, put_self, getitem, ret, with_store. rewrite Hv.
      destruct (get (candidate_functions (self w)) k) as [entry|] eqn:E;
        cbn [self calls vw candidates_weighted candidate_functions];
        rewrite ?E, ?get_set_same, ?set_set; reflexivity. }
    unfold bind. rewrite Hb, IH by (intros k' Hin; apply Hks; now right).
    reflexivity.
Qed.

(** [merge_candidates] never raises; it returns the store itself for a
    falsy argument and [None] otherwise, and leaves the store [merged]. *)
Lemma merge_candidates_run p (r : PluginResult) w :
  merge_candidates p r w
  = (inr (if result_truthy r then None else Some (store_of w)),
     with_store w (merged p r (store_of w))).
Proof.
  unfold merge_candidates, merged.
  destruct r as [pc|]; simpl.
  - destruct (truthy pc) eqn:T; simpl.
    + unfold bind at 1. rewrite merge_loop_run by auto. reflexivity.
    + destruct pc; [|discriminate]. simpl. now rewrite with_store_same.
  - now rewrite with_store_same.
Qed.

End MergeFacts.

Section MergedFacts.
Implicit Types (s : CandidateStore) (p q : string) (pc : dict Z float).

Lemma merge_step_other p q pc s f f' :
  q <> p -> metric_of (merge_step p pc s f) f' q = metric_of s f' q.
Proof.
  intros Hq. unfold merge_step.
  destruct (get pc f) as [v|]; [|reflexivity].
  unfold metric_of.
  destruct (Z.eq_dec f f') as [<-|Hf].
  - destruct (get s f) as [entry|] eqn:E; rewrite get_set_same.
    + apply get_set_other. congruence.
    + rewrite get_set_other by congruence. reflexivity.
  - destruct (get s f) as [entry|]; now rewrite get_set_other.
Qed.

Lemma merge_step_same p pc s f f' v :
  get pc f = Some v ->
  metric_of (merge_step p pc s f) f' p
  = if Z.eqb f f' then Some v else metric_of s f' p.
Proof.
  intros Hv. unfold merge_step. rewrite Hv. unfold metric_of.
  destruct (Z.eqb_spec f f') as [<-|Hf].
  - destruct (get s f) as [entry|]; now rewrite !get_set_same.
  - destruct (get s f) as [entry|]; now rewrite get_set_other.
Qed.

Lemma merge_step_get_None p pc s f f' v :
  get pc f = Some v ->
  get (merge_step p pc s f) f' = None <-> f <> f' /\ get s f' = None.
Proof.
  intros Hv. unfold merge_step. rewrite Hv.
  destruct (Z.eq_dec f f') as [<-|Hf].
  - destruct (get s f); rewrite get_set_same; split;
      try discriminate; intros [Hn _]; congruence.
  - destruct (get s f); rewrite get_set_other by assumption; tauto.
Qed.

Lemma merge_fold_other p q pc ks s f :
  q <> p ->
  metric_of (fold_left (merge_step p pc) ks s) f q = metric_of s f q.
Proof.
  intros Hq. revert s.
  induction ks as [|k ks IH]; intros s; simpl; [reflexivity|].
  rewrite IH. now apply merge_step_other.
Qed.

Lemma merge_fold_same p pc ks s f :
  (forall k, In k ks -> In k (keys pc)) ->
  metric_of (fold_left (merge_step p pc) ks s) f p
  = if in_dec Z.eq_dec f ks then get pc f else metric_of s f p.
Proof.
  revert s. induction ks as [|k ks IH]; intros s Hks; simpl; [reflexivity|].
  destruct (get_Some_keys pc k (Hks k (or_introl eq_refl))) as [v Hv].
  rewrite IH by (intros k' Hin; apply Hks; now right).
  rewrite (@merge_step_same p pc s k f v Hv).
  destruct (in_dec Z.eq_dec f ks) as [Hin|Hni];
    destruct (Z.eq_dec k f) as [Hk|Hk]; try reflexivity.
  - subst k. now rewrite Z.eqb_refl.
  - apply Z.eqb_neq in Hk. now rewrite Hk.
Qed.

Lemma merge_fold_get_None p pc ks s f :
  (forall k, In k ks -> In k (keys pc)) ->
  get (fold_left (merge_step p pc) ks s) f = None
  <-> ~ In f ks /\ get s f = None.
Proof.
  revert s. induction ks as [|k ks IH]; intros s Hks; simpl; [tauto|].
  destruct (get_Some_keys pc k (Hks k (or_introl eq_refl))) as [v Hv].
  rewrite IH by (intros k' Hin; apply Hks; now right).
  rewrite (@merge_step_get_None p pc s k f v Hv). tauto.
Qed.

(** Merging under [p] leaves every other plugin's metrics alone. *)
Lemma merged_other p q r s f :
  q <> p -> metric_of (merged p r s) f q = metric_of s f q.
Proof.
  intros Hq. destruct r as [pc|]; simpl; [|reflexivity].
  now apply merge_fold_other.
Qed.

(** Merging under [p] sets [p]'s metric where the result binds the address. *)
Lemma merged_same p r s f :
  metric_of (merged p r s) f p
  = match result_get r f with
    | Some v => Some v
    | None => metric_of s f p
    end.
Proof.
  destruct r as [pc|]; simpl; [|reflexivity].
  rewrite merge_fold_same by auto.
  destruct (in_dec Z.eq_dec f (keys pc)) as [Hin|Hni].
  - destruct (get_Some_keys pc f Hin) as [v ->]. reflexivity.
  - apply get_None_keys in Hni. now rewrite Hni.
Qed.

(** The addresses after a merge: those before and those of the result. *)
Lemma merged_get_None p r s f :
  get (merged p r s) f = None <-> result_get r f = None /\ get s f = None.
Proof.
  destruct r as [pc|]; simpl; [|tauto].
  rewrite merge_fold_get_None by auto.
  rewrite <- get_None_keys. tauto.
Qed.

Lemma metric_of_ext s1 s2 :
  (forall f, get s1 f = None <-> get s2 f = None) ->
  (forall f q, metric_of s1 f q = metric_of s2 f q) ->
  store_equiv s1 s2.
Proof.
  intros Hdom Hm f. specialize (Hdom f). unfold metric_of in Hm.
  destruct (get s1 f) as [e1|] eqn:E1, (get s2 f) as [e2|] eqn:E2.
  - intros q. specialize (Hm f q). now rewrite E1, E2 in Hm.
  - destruct Hdom as [_ H]. now discriminate H.
  - destruct Hdom as [H _]. now discriminate H.
  - exact I.
Qed.

End MergedFacts.

Section MergeClaims.
Variable Workspace : Type.
Implicit Types (w : World Workspace) (p q : string) (r : PluginResult).

(** Two merges in a row raise nothing and compose the two [merged] stores. *)
Lemma merge_twice_run p q r1 r2 w :
  (merge_candidates p r1 ;; merge_candidates q r2) w
  = (inr (if result_truthy r2 then None
          else Some (merged p r1 (store_of w))),
     with_store w (merged q r2 (merged p r1 (store_of w)))).
Proof.
  unfold bind. now rewrite !merge_candidates_run.
Qed.

(** C8. Calling [merge_candidates] with an absent ([None]) or an empty
    ([{}]) result mapping raises nothing and leaves the whole manager, its
    candidate store included, exactly as it was; the call returns the
    store. *)
Theorem merge_candidates_empty_noop p w :
  merge_candidates p None w = (inr (Some (store_of w)), w)
  /\ merge_candidates p (Some empty) w = (inr (Some (store_of w)), w).
Proof. split; reflexivity. Qed.

(** C5. Merging [r1] and then [r2] under the same plugin name [p] raises
    nothing; afterwards the store holds [r2]'s metric under [p] for every
    address [r2] binds, and for every address the metric of every other
    plugin name is what it was before the two merges (absent where it was
    absent). *)
Theorem merge_same_plugin_overwrites p r1 r2 w :
  exists ret w',
    (merge_candidates p r1 ;; merge_candidates p r2) w = (inr ret, w')
    /\ (forall f m, result_get r2 f = Some m ->
                    metric_of (store_of w') f p = Some m)
    /\ (forall f q, q <> p ->
                    metric_of (store_of w') f q = metric_of (store_of w) f q).
Proof.
  rewrite merge_twice_run. eexists. eexists. split; [reflexivity|].
  rewrite store_of_with_store. split.
  - intros f m Hm. now rewrite merged_same, Hm.
  - intros f q Hq. now rewrite !merged_other.
Qed.

(** C6. For distinct plugin names [A] and [B], merging [rA] under [A] and
    then [rB] under [B], and merging in the other order, both raise nothing
    and leave stores that bind the same addresses, and every address to the
    same plugin-name-to-metric mapping. *)
Theorem merge_distinct_plugins_commute (A B : string) rA rB w :
  A <> B ->
  exists retAB wAB retBA wBA,
    (merge_candidates A rA ;; merge_candidates B rB) w = (inr retAB, wAB)
    /\ (merge_candidates B rB ;; merge_candidates A rA) w = (inr retBA, wBA)
    /\ store_equiv (store_of wAB) (store_of wBA).
Proof.
  intros HAB. rewrite !merge_twice_run.
  do 4 eexists. split; [reflexivity|]. split; [reflexivity|].
  rewrite !store_of_with_store.
  apply metric_of_ext.
  - intros f. rewrite !merged_get_None. tauto.
  - intros f q.
    destruct (string_dec q A) as [->|HqA].
    + rewrite merged_other, merged_same by congruence.
      rewrite merged_same, merged_other by congruence. reflexivity.
    + destruct (string_dec q B) as [->|HqB].
      * rewrite merged_same, merged_other by congruence.
        rewrite merged_other, merged_same by congruence. reflexivity.
      * now rewrite !merged_other.
Qed.

End MergeClaims.

Lemma merge_same_plugin_overwrites_witness :
  exists ret w',
    (merge_candidates "XORPlugin" (Some [(0x401000%Z, 0.75%float)]) ;;
     merge_candidates "XORPlugin" (Some [(0x401000%Z, 0.25%float)]))
      Sample.world
    = (inr ret, w')
    /\ metric_of (store_of w') 0x401000%Z "XORPlugin" = Some 0.25%float
    /\ metric_of (store_of w') 0x401000%Z "FunctionArgumentCountPlugin"
       = metric_of (store_of Sample.world) 0x401000%Z
           "FunctionArgumentCountPlugin".
Proof.
  destruct (@merge_same_plugin_overwrites unit "XORPlugin"
              (Some [(0x401000%Z, 0.75%float)])
              (Some [(0x401000%Z, 0.25%float)]) Sample.world)
    as (ret & w' & Hrun & Hset & Hkeep).
  exists ret, w'. split; [exact Hrun|]. split.
  - apply Hset. reflexivity.
  - apply Hkeep. discriminate.
Defined.

Lemma merge_distinct_plugins_commute_witness :
  "XORPlugin" <> "MovPlugin"
  /\ exists retAB wAB retBA wBA,
       (merge_candidates "XORPlugin" (Some [(0x404000%Z, 0.25%float)]) ;;
        merge_candidates "MovPlugin"
          (Some [(0x401000%Z, 0.5%float); (0x404000%Z, 1.0%float)]))
         Sample.world
       = (inr retAB, wAB)
       /\ (merge_candidates "MovPlugin"
             (Some [(0x401000%Z, 0.5%float); (0x404000%Z, 1.0%float)]) ;;
           merge_candidates "XORPlugin" (Some [(0x404000%Z, 0.25%float)]))
            Sample.world
          = (inr retBA, wBA)
       /\ store_equiv (store_of wAB) (store_of wBA).
Proof.
  split; [discriminate|].
  apply (@merge_distinct_plugins_commute unit "XORPlugin" "MovPlugin"
           (Some [(0x404000%Z, 0.25%float)])
           (Some [(0x401000%Z, 0.5%float); (0x404000%Z, 1.0%float)])
           Sample.world).
  discriminate.
Defined.

(** The two orders of merging give entries with the keys in different order:
    the stores are equal as mappings, not as sequences. *)
Example merge_distinct_plugins_key_order :
  get (store_of
         (exec (merge_candidates "MovPlugin" (Some [(0x404000%Z, 1.0%float)]))
            (exec (merge_candidates "XORPlugin" (Some [(0x404000%Z, 0.25%float)]))
               Sample.world))) 0x404000%Z
  = Some [("XORPlugin", 0.25%float); ("MovPlugin", 1.0%float)]
  /\ get (store_of
            (exec (merge_candidates "XORPlugin" (Some [(0x404000%Z, 0.25%float)]))
               (exec (merge_candidates "MovPlugin" (Some [(0x404000%Z, 1.0%float)]))
                  Sample.world))) 0x404000%Z
     = Some [("MovPlugin", 1.0%float); ("XORPlugin", 0.25%float)].
Proof. split; reflexivity. Qed.

(** ** apply_plugin_weights *)

Section WeightFacts.
Variable Workspace : Type.
Implicit Types (w : World Workspace) (s : CandidateStore).

Lemma inner_loop_run (entry : list (string * float)) :
  forall (total : float) w,
    for_fold entry total
      (fun total_score item' =>
         let (plugin_name, score) := item' in
         if negb (contains PLUGIN_WEIGHTS plugin_name) then
           raise (Exception ("Plugin weight not found: " ++ plugin_name))
         else
           wt <- getitem PLUGIN_WEIGHTS plugin_name ;;
           ret (total_score + wt * score)%float) w
    = (match first_unknown_in entry with
       | Some p => inl (weight_not_found p)
       | None => match entry_total total entry with
                 | Some t => inr t
                 | None => inl KeyError
                 end
       end, w).
Proof.
  induction entry as [|[p m] entry IH]; intros total w; [reflexivity|].
  cbn [for_fold entry_total]. unfold first_unknown_in, items.
  cbn [find]. unfold unknown_plugin at 1. cbn [fst].
  unfold bind at 1. unfold contains.
  destruct (get PLUGIN_WEIGHTS p) as [wt|] eqn:E; cbn [negb].
  - unfold bind, getitem, ret. rewrite E.
    apply IH.
  - reflexivity.
Qed.

Lemma entry_total_known (total : float) (entry : list (string * float)) :
  first_unknown_in entry = None -> exists t, entry_total total entry = Some t.
Proof.
  revert total. unfold first_unknown_in, items.
  induction entry as [|[p m] entry IH]; intros total; cbn [find entry_total].
  - eauto.
  - unfold unknown_plugin at 1, contains. cbn [fst].
    destruct (get PLUGIN_WEIGHTS p) as [wt|]; cbn [negb option_map].
    + apply IH.
    + discriminate.
Qed.

Lemma outer_loop_run (s : list (Z * CandidateEntry)) :
  forall (fw : dict Z float) w,
    for_fold s fw
      (fun functions_weighted item =>
         let (candidate_function, plugin_score) := item in
         total_score <-
           for_fold (items plugin_score) 0%float
             (fun total_score item' =>
                let (plugin_name, score) := item' in
                if negb (contains PLUGIN_WEIGHTS plugin_name) then
                  raise (Exception ("Plugin weight not found: " ++ plugin_name))
                else
                  wt <- getitem PLUGIN_WEIGHTS plugin_name ;;
                  ret (total_score + wt * score)%float) ;;
         ret (set functions_weighted candidate_function total_score)) w
    = (match first_unknown s with
       | Some p => inl (weight_not_found p)
       | None => match weighted_from fw s with
                 | Some fw' => inr fw'
                 | None => inl KeyError
                 end
       end, w).
Proof.
  induction s as [|[f entry] s IH]; intros fw w; [reflexivity|].
  cbn [for_fold first_unknown weighted_from].
  unfold bind at 1. unfold bind at 1. unfold items at 1.
  rewrite inner_loop_run.
  destruct (first_unknown_in entry) as [p|] eqn:U; [reflexivity|].
  destruct (entry_total_known 0 entry U) as [t ->].
  unfold ret at 1. apply IH.
Qed.

(** What [apply_plugin_weights] does, in terms of the two functions. *)
Lemma apply_plugin_weights_run w :
  apply_plugin_weights w
  = match first_unknown (store_of w) with
    | Some p => (inl (weight_not_found p), w)
    | None => match weighted_from empty (store_of w) with
              | Some fw => (inr tt, with_weighted w fw)
              | None => (inl KeyError, w)
              end
    end.
Proof.
  unfold apply_plugin_weights.
  unfold bind at 1. unfold get_self at 1. unfold bind at 1.
  unfold items at 1. rewrite outer_loop_run. fold (store_of w).
  destruct (first_unknown (store_of w)) as [p|]; [reflexivity|].
  destruct (weighted_from empty (store_of w)) as [fw|]; reflexivity.
Qed.

End WeightFacts.

Section WeightedFromFacts.
Implicit Types (s : list (Z * CandidateEntry)) (fw : dict Z float).

Lemma first_unknown_in_None (entry : CandidateEntry) :
  first_unknown_in entry = None
  <-> forallb (fun item => contains PLUGIN_WEIGHTS (fst item)) (items entry)
      = true.
Proof.
  unfold first_unknown_in, items.
  induction entry as [|[p m] entry IH]; cbn [find forallb]; [tauto|].
  unfold unknown_plugin at 1. cbn [fst].
  destruct (contains PLUGIN_WEIGHTS p); cbn [negb andb option_map].
  - exact IH.
  - split; discriminate.
Qed.

Lemma first_unknown_None s :
  first_unknown s = None <-> store_known s = true.
Proof.
  unfold store_known, items.
  induction s as [|[f entry] s IH]; cbn [first_unknown forallb snd]; [tauto|].
  destruct (first_unknown_in entry) as [p|] eqn:U.
  - split; [discriminate|]. intros H. apply andb_prop in H as [H _].
    apply first_unknown_in_None in H. unfold items in H. congruence.
  - apply first_unknown_in_None in U. unfold items in U. rewrite U.
    exact IH.
Qed.

Lemma first_unknown_in_Some (entry : CandidateEntry) p :
  first_unknown_in entry = Some p ->
  contains PLUGIN_WEIGHTS p = false /\ exists m, In (p, m) entry.
Proof.
  unfold first_unknown_in, items.
  destruct (find unknown_plugin entry) as [[p' m]|] eqn:F; [|discriminate].
  intros [= <-]. apply find_some in F as [Hin Hu].
  unfold unknown_plugin in Hu. cbn [fst] in Hu.
  apply negb_true_iff in Hu. eauto.
Qed.

Lemma first_unknown_Some s p :
  first_unknown s = Some p ->
  contains PLUGIN_WEIGHTS p = false
  /\ exists f entry m, In (f, entry) s /\ In (p, m) entry.
Proof.
  induction s as [|[f entry] s IH]; cbn [first_unknown]; [discriminate|].
  destruct (first_unknown_in entry) as [p'|] eqn:U.
  - intros [= ->]. apply first_unknown_in_Some in U as [Hc [m Hm]].
    split; [assumption|]. exists f, entry, m. split; [now left|assumption].
  - intros H. destruct (IH H) as [Hc (f' & e' & m & Hin & Hm)].
    split; [assumption|]. exists f', e', m. split; [now right|assumption].
Qed.

Lemma store_known_In s f entry p m :
  store_known s = true -> In (f, entry) s -> In (p, m) entry ->
  contains PLUGIN_WEIGHTS p = true.
Proof.
  unfold store_known, items. intros Hk Hin Hm.
  rewrite forallb_forall in Hk. specialize (Hk _ Hin). cbn [snd] in Hk.
  rewrite forallb_forall in Hk. exact (Hk _ Hm).
Qed.

Lemma weighted_from_known s fw :
  first_unknown s = None -> exists fw', weighted_from fw s = Some fw'.
Proof.
  revert fw.
  induction s as [|[f entry] s IH]; intros fw;
    cbn [first_unknown weighted_from]; [eauto|].
  destruct (first_unknown_in entry) as [p|] eqn:U; [discriminate|].
  destruct (entry_total_known 0 entry U) as [t ->]. auto.
Qed.

(** The inner loop adds one product per item of the entry, in order. *)
Lemma entry_total_sum (entry : list (string * float)) :
  forall total t,
    entry_total total entry = Some t ->
    exists ws,
      map Some ws = map (fun item => get PLUGIN_WEIGHTS (fst item)) entry
      /\ t = fold_left (fun acc x => (acc + fst x * snd x)%float)
                       (combine ws (map snd entry)) total.
Proof.
  induction entry as [|[p m] entry IH]; intros total t; cbn [entry_total].
  - intros [= <-]. exists []. split; reflexivity.
  - destruct (get PLUGIN_WEIGHTS p) as [wt|] eqn:E; [|discriminate].
    intros H. destruct (IH _ _ H) as (ws & Hws & Ht).
    exists (wt :: ws). cbn [map fst snd combine fold_left].
    rewrite E, Hws. split; [reflexivity|exact Ht].
Qed.

(** An address the loop does not visit keeps its binding. *)
Lemma weighted_from_frame s :
  forall fw fw' f,
    weighted_from fw s = Some fw' -> ~ In f (keys s) ->
    get fw' f = get fw f.
Proof.
  induction s as [|[f0 entry] s IH]; intros fw fw' f; cbn [weighted_from].
  - now intros [= <-].
  - destruct (entry_total 0 entry) as [t|]; [|discriminate].
    intros H Hni. unfold keys in Hni. simpl in Hni.
    rewrite (IH _ _ f H) by (unfold keys; tauto).
    apply get_set_other. tauto.
Qed.

Lemma weighted_from_get s :
  forall fw fw' f entry,
    wf s -> weighted_from fw s = Some fw' -> get s f = Some entry ->
    exists t, entry_total 0 entry = Some t /\ get fw' f = Some t.
Proof.
  unfold wf.
  induction s as [|[f0 e0] s IH]; intros fw fw' f entry Hnd;
    cbn [weighted_from get]; [discriminate|].
  unfold keys in Hnd. simpl in Hnd. inversion Hnd as [|? ? Hni Hnd']; subst.
  destruct (entry_total 0 e0) as [t0|] eqn:E0; [|discriminate].
  intros H. change (@key_eqb Z PyKey_int f0 f) with (Z.eqb f0 f).
  destruct (Z.eqb_spec f0 f) as [<-|Hf].
  - intros [= <-]. exists t0. split; [assumption|].
    rewrite (@weighted_from_frame s (set fw f0 t0) fw' f0 H Hni).
    apply get_set_same.
  - intros Hg. exact (IH _ _ _ _ Hnd' H Hg).
Qed.

Lemma weighted_from_keys s :
  forall fw fw',
    wf s -> (forall k, In k (keys s) -> ~ In k (keys fw)) ->
    weighted_from fw s = Some fw' ->
    keys fw' = keys fw ++ keys s.
Proof.
  unfold wf.
  induction s as [|[f0 e0] s IH]; intros fw fw' Hnd Hdis; cbn [weighted_from].
  - intros [= <-]. cbn. now rewrite app_nil_r.
  - unfold keys in Hnd, Hdis. simpl in Hnd, Hdis.
    inversion Hnd as [|? ? Hni Hnd']; subst.
    destruct (entry_total 0 e0) as [t0|]; [|discriminate].
    intros H. rewrite (IH _ _ Hnd') with (2 := H).
    + rewrite keys_set.
      destruct (contains fw f0) eqn:C.
      * apply contains_keys in C. exfalso. apply (Hdis f0); simpl; auto.
      * cbn [keys map fst]. now rewrite <- app_assoc.
    + intros k Hk. rewrite keys_set.
      destruct (contains fw f0) eqn:C.
      * apply Hdis. simpl. auto.
      * rewrite in_app_iff. intros [Hin|[<-|[]]].
        -- apply (Hdis k); simpl; auto.
        -- contradiction.
Qed.

End WeightedFromFacts.

Section WeightClaims.
Variable Workspace : Type.
Implicit Types (w : World Workspace).

(** C1. When the store is a well-formed dict and every plugin name in it
    has a weight, [apply_plugin_weights] raises nothing and sets
    [candidates_weighted] to a mapping whose keys are exactly the store's
    addresses (in the store's order) and which binds every address [f] to
    [0.0 + w1 * m1 + ... + wn * mn], one product for each plugin name the
    entry of [f] binds, in the entry's order, [wi] being that name's weight
    and [mi] its metric: a plugin absent from the entry has no term. *)
Theorem apply_plugin_weights_scores w :
  wf (store_of w) ->
  store_known (store_of w) = true ->
  exists fw,
    apply_plugin_weights w = (inr tt, with_weighted w fw)
    /\ keys fw = keys (store_of w)
    /\ forall f entry,
         get (store_of w) f = Some entry ->
         exists ws,
           map Some ws
           = map (fun item => get PLUGIN_WEIGHTS (fst item)) (items entry)
           /\ get fw f = Some (sum_of_products ws (map snd (items entry))).
Proof.
  intros Hwf Hk. apply first_unknown_None in Hk.
  destruct (weighted_from_known (store_of w) empty Hk) as [fw Hfw].
  exists fw. rewrite apply_plugin_weights_run, Hk, Hfw.
  split; [reflexivity|]. split.
  - exact (@weighted_from_keys (store_of w) empty fw Hwf (fun k _ H => H) Hfw).
  - intros f entry Hg.
    destruct (@weighted_from_get (store_of w) empty fw f entry Hwf Hfw Hg)
      as (t & Ht & Hgt).
    destruct (@entry_total_sum entry 0%float t Ht) as (ws & Hws & ->).
    exists ws. split; assumption.
Qed.

(** C2. When some entry of the store binds a plugin name that has no
    weight, [apply_plugin_weights] raises
    [Exception("Plugin weight not found: " + p')], where [p'] is the first
    such name the loops meet (a name of the store without a weight), and it
    leaves the manager as it was: [candidates_weighted] is not assigned, so
    no function gets a score. *)
Theorem apply_plugin_weights_unknown w f entry p m :
  In (f, entry) (store_of w) ->
  In (p, m) entry ->
  contains PLUGIN_WEIGHTS p = false ->
  exists p',
    first_unknown (store_of w) = Some p'
    /\ contains PLUGIN_WEIGHTS p' = false
    /\ (exists f' entry' m',
          In (f', entry') (store_of w) /\ In (p', m') entry')
    /\ apply_plugin_weights w
       = (inl (Exception ("Plugin weight not found: " ++ p')%string), w).
Proof.
  intros Hin Hm Hc.
  destruct (first_unknown (store_of w)) as [p'|] eqn:U.
  - exists p'. destruct (@first_unknown_Some (store_of w) p' U) as [Hc' Hex].
    rewrite apply_plugin_weights_run, U. auto.
  - apply first_unknown_None in U.
    rewrite (@store_known_In (store_of w) f entry p m U Hin Hm) in Hc.
    discriminate.
Qed.

End WeightClaims.

Lemma sample_store_wf : wf Sample.store.
Proof.
  unfold wf, Sample.store, keys. simpl.
  repeat constructor; simpl; intuition discriminate.
Qed.

Lemma apply_plugin_weights_scores_witness :
  wf (store_of Sample.world)
  /\ store_known (store_of Sample.world) = true
  /\ exists fw,
       apply_plugin_weights Sample.world = (inr tt, with_weighted Sample.world fw)
       /\ keys fw = keys (store_of Sample.world)
       /\ forall f entry,
            get (store_of Sample.world) f = Some entry ->
            exists ws,
              map Some ws
              = map (fun item => get PLUGIN_WEIGHTS (fst item)) (items entry)
              /\ get fw f = Some (sum_of_products ws (map snd (items entry))).
Proof.
  split; [exact sample_store_wf|]. split; [reflexivity|].
  apply (@apply_plugin_weights_scores unit Sample.world).
  - exact sample_store_wf.
  - reflexivity.
Defined.

Lemma apply_plugin_weights_unknown_witness :
  exists p',
    first_unknown (store_of Sample.world_unknown) = Some p'
    /\ contains PLUGIN_WEIGHTS p' = false
    /\ (exists f' entry' m',
          In (f', entry') (store_of Sample.world_unknown) /\ In (p', m') entry')
    /\ apply_plugin_weights Sample.world_unknown
       = (inl (Exception ("Plugin weight not found: " ++ p')%string),
          Sample.world_unknown).
Proof.
  apply (@apply_plugin_weights_unknown unit Sample.world_unknown
           0x402000%Z
           [("ShiftPlugin", 0.5%float); ("EntropyPlugin", 1.0%float)]
           "EntropyPlugin" 1.0%float).
  - simpl. right. left. reflexivity.
  - simpl. right. left. reflexivity.
  - reflexivity.
Defined.

(** ** The order of floats that are not NaN *)

Section SpecFloatOrder.
Implicit Types x y z : spec_float.

Ltac cmp_cases :=
  repeat match goal with
  | |- context [Z.compare ?a ?b] =>
      destruct (Z.compare_spec a b); subst
  | |- context [Pos.compare_cont Eq ?a ?b] =>
      change (Pos.compare_cont Eq a b) with (Pos.compare a b);
      destruct (Pos.compare_spec a b); subst
  end; simpl; try reflexivity; try discriminate; try lia.

Lemma SFleb_trans x y z :
  SFleb x y = true -> SFleb y z = true -> SFleb x z = true.
Proof.
  unfold SFleb, SFcompare.
  destruct x as [[]|[]| |[] mx ex], y as [[]|[]| |[] my ey],
           z as [[]|[]| |[] mz ez];
    simpl; try reflexivity; try discriminate; cmp_cases.
Qed.

Lemma SFltb_false_leb x y :
  x <> S754_nan -> y <> S754_nan -> SFltb x y = false -> SFleb y x = true.
Proof.
  unfold SFleb, SFltb, SFcompare.
  destruct x as [[]|[]| |[] mx ex], y as [[]|[]| |[] my ey];
    simpl; try reflexivity; try discriminate; try congruence; cmp_cases.
Qed.

Lemma SFltb_leb x y : SFltb x y = true -> SFleb x y = true.
Proof.
  unfold SFleb, SFltb. destruct (SFcompare x y) as [[]|]; congruence.
Qed.

Lemma SFeqb_not_ltb x y v :
  SFeqb x v = true -> SFeqb y v = true -> SFltb x y = false.
Proof.
  unfold SFeqb, SFltb, SFcompare.
  destruct x as [[]|[]| |[] mx ex], y as [[]|[]| |[] my ey],
           v as [[]|[]| |[] mz ez];
    simpl; try reflexivity; try discriminate; cmp_cases.
Qed.

End SpecFloatOrder.

Section FloatOrder.
Implicit Types a b c v : float.
Local Open Scope float_scope.

Lemma not_nan_spec a : is_nan a = false -> Prim2SF a <> S754_nan.
Proof.
  unfold is_nan. rewrite negb_false_iff, eqb_spec. intros H E.
  rewrite E in H. discriminate.
Qed.

Lemma float_ltb_leb a b : (a <? b) = true -> (a <=? b) = true.
Proof. rewrite ltb_spec, leb_spec. apply SFltb_leb. Qed.

Lemma float_ltb_false_leb a b :
  is_nan a = false -> is_nan b = false -> (a <? b) = false -> (b <=? a) = true.
Proof.
  intros Ha Hb. rewrite ltb_spec, leb_spec.
  apply SFltb_false_leb; now apply not_nan_spec.
Qed.

Lemma float_leb_trans a b c :
  (a <=? b) = true -> (b <=? c) = true -> (a <=? c) = true.
Proof. rewrite !leb_spec. apply SFleb_trans. Qed.

Lemma float_eqb_not_ltb a b v :
  (a =? v) = true -> (b =? v) = true -> (a <? b) = false.
Proof. rewrite !eqb_spec, ltb_spec. apply SFeqb_not_ltb. Qed.

End FloatOrder.

(** ** sorted(..., key=itemgetter(1), reverse=True) *)

Section SortedFacts.
Local Open Scope float_scope.
Implicit Types (x y : Z * float) (l : list (Z * float)).

Local Abbreviation insert := (sorted_insert (@itemgetter_1 Z float) true).
Local Abbreviation sort := (sorted (@itemgetter_1 Z float) true).

Lemma sorted_insert_perm x l : Permutation (x :: l) (insert x l).
Proof.
  induction l as [|y l IH]; simpl; [reflexivity|].
  destruct (itemgetter_1 x <? itemgetter_1 y); [|reflexivity].
  rewrite perm_swap. now constructor.
Qed.

Lemma sorted_perm l : Permutation l (sort l).
Proof.
  induction l as [|x l IH]; simpl; [constructor|].
  rewrite <- sorted_insert_perm. now constructor.
Qed.

Lemma sorted_length l : List.length (sort l) = List.length l.
Proof. symmetry. apply Permutation_length, sorted_perm. Qed.

Lemma sorted_insert_descending x l :
  is_nan (snd x) = false ->
  Forall (fun y => is_nan (snd y) = false) l ->
  descending l -> descending (insert x l).
Proof.
  unfold descending. intros Hx Hl Hs.
  induction Hs as [|y l Hs IH Hy]; simpl.
  - repeat constructor.
  - inversion Hl as [|? ? Hny Hl']; subst.
    destruct (itemgetter_1 x <? itemgetter_1 y) eqn:E;
      unfold itemgetter_1 in E.
    + constructor; [auto|].
      apply (Permutation_Forall (sorted_insert_perm x l)).
      constructor; [now apply float_ltb_leb | assumption].
    + assert (Hyx : (snd y <=? snd x) = true)
        by now apply float_ltb_false_leb.
      constructor; [now constructor|].
      constructor; [assumption|].
      eapply Forall_impl; [|exact Hy].
      intros z Hz. cbn beta in Hz |- *.
      now apply float_leb_trans with (snd y).
Qed.

Lemma sorted_descending l :
  Forall (fun y => is_nan (snd y) = false) l -> descending (sort l).
Proof.
  induction 1 as [|x l Hx Hl IH]; simpl.
  - constructor.
  - apply sorted_insert_descending; [assumption| |assumption].
    now apply (Permutation_Forall (sorted_perm l)).
Qed.

(** Stability: the entries of one score keep their relative order. *)
Lemma sorted_insert_with_score v x l :
  with_score v (insert x l) = with_score v (x :: l).
Proof.
  unfold with_score.
  induction l as [|y l IH]; simpl; [reflexivity|].
  destruct (itemgetter_1 x <? itemgetter_1 y) eqn:E; [|reflexivity].
  unfold itemgetter_1 in E. simpl. rewrite IH. simpl.
  destruct (snd y =? v) eqn:Ey, (snd x =? v) eqn:Ex; try reflexivity.
  rewrite (float_eqb_not_ltb Ex Ey) in E. discriminate.
Qed.

Lemma sorted_with_score v l : with_score v (sort l) = with_score v l.
Proof.
  induction l as [|x l IH]; simpl; [reflexivity|].
  rewrite sorted_insert_with_score. unfold with_score in *. simpl.
  now rewrite IH.
Qed.

Lemma descending_firstn n l : descending l -> descending (firstn n l).
Proof.
  unfold descending. intros Hs. revert n.
  induction Hs as [|y l Hs IH Hy]; intros [|n]; simpl; try constructor.
  - apply IH.
  - rewrite <- (firstn_skipn n l) in Hy. now apply Forall_app in Hy.
Qed.

End SortedFacts.

(** ** Ranking *)

Section RankClaims.
Variable Workspace : Type.
Implicit Types (w : World Workspace) (cw fw : dict Z float).

Lemma sort_candidates_by_score_run w cw :
  candidates_weighted (self w) = Some cw ->
  sort_candidates_by_score w
  = (inr (sorted (@itemgetter_1 Z float) true (items cw)), w).
Proof.
  intros H. unfold sort_candidates_by_score, bind, get_self.
  now rewrite H.
Qed.

Lemma map_pair_id (l : list (Z * float)) :
  map (fun p => (fst p, snd p)) l = l.
Proof.
  induction l as [|[f t] l IH]; simpl; [reflexivity|]. now rewrite IH.
Qed.

Lemma get_top_candidate_functions_run w cw n :
  candidates_weighted (self w) = Some cw ->
  get_top_candidate_functions n w
  = (inr (slice_to (sorted (@itemgetter_1 Z float) true (items cw)) n), w).
Proof.
  intros H. unfold get_top_candidate_functions, bind.
  rewrite (sort_candidates_by_score_run w H). unfold ret.
  now rewrite map_pair_id.
Qed.

(** C3. Once [candidates_weighted] is set to a mapping [cw], for every
    [n >= 0] [get_top_candidate_functions(n)] raises nothing and returns a
    prefix [top] of the sequence [sort_candidates_by_score] returns, of
    length [min(n, len(cw))]; that full sequence is a permutation of the
    items of [cw], and when no score is NaN both it and [top] are in
    descending order of score; [n = 0] gives the empty list. *)
Theorem get_top_candidate_functions_topn w cw n :
  candidates_weighted (self w) = Some cw ->
  (0 <= n)%Z ->
  exists top rest,
    get_top_candidate_functions n w = (inr top, w)
    /\ sort_candidates_by_score w = (inr (top ++ rest), w)
    /\ List.length top = Nat.min (Z.to_nat n) (len cw)
    /\ Permutation (top ++ rest) (items cw)
    /\ (scores_not_nan cw -> descending (top ++ rest) /\ descending top)
    /\ (n = 0%Z -> top = []).
Proof.
  intros Hcw Hn.
  set (ranked := sorted (@itemgetter_1 Z float) true (items cw)).
  exists (firstn (Z.to_nat n) ranked), (skipn (Z.to_nat n) ranked).
  rewrite firstn_skipn.
  rewrite (get_top_candidate_functions_run w n Hcw).
  rewrite (sort_candidates_by_score_run w Hcw).
  unfold slice_to. fold ranked.
  destruct (Z.ltb_spec n 0) as [Hneg|_]; [lia|].
  repeat split.
  - rewrite length_firstn. unfold ranked. rewrite sorted_length. reflexivity.
  - symmetry. apply sorted_perm.
  - now apply sorted_descending.
  - now apply descending_firstn, sorted_descending.
  - intros ->. reflexivity.
Qed.

(** For a negative [n] the slice keeps all but the last [-n] entries of the
    ranking; nothing is raised and [n] is not clamped to 0. *)
Lemma get_top_candidate_functions_negative w cw n :
  candidates_weighted (self w) = Some cw ->
  (n < 0)%Z ->
  get_top_candidate_functions n w
  = (inr (firstn (len cw - Z.to_nat (- n))
            (sorted (@itemgetter_1 Z float) true (items cw))), w).
Proof.
  intros Hcw Hn. rewrite (get_top_candidate_functions_run w n Hcw).
  unfold slice_to. destruct (Z.ltb_spec n 0) as [_|Hge]; [|lia].
  rewrite sorted_length. unfold len, items.
  do 3 f_equal. lia.
Qed.

End RankClaims.

Lemma sample_weighted_not_nan : scores_not_nan Sample.weighted.
Proof. repeat constructor. Qed.

Lemma get_top_candidate_functions_topn_witness :
  candidates_weighted (self Sample.world_weighted) = Some Sample.weighted
  /\ (0 <= 2)%Z
  /\ scores_not_nan Sample.weighted
  /\ exists top rest,
       get_top_candidate_functions 2 Sample.world_weighted
       = (inr top, Sample.world_weighted)
       /\ sort_candidates_by_score Sample.world_weighted
          = (inr (top ++ rest), Sample.world_weighted)
       /\ List.length top = Nat.min (Z.to_nat 2) (len Sample.weighted)
       /\ Permutation (top ++ rest) (items Sample.weighted)
       /\ descending (top ++ rest)
       /\ descending top.
Proof.
  split; [reflexivity|]. split; [lia|].
  split; [exact sample_weighted_not_nan|].
  destruct (@get_top_candidate_functions_topn unit Sample.world_weighted
              Sample.weighted 2%Z eq_refl ltac:(lia))
    as (top & rest & Htop & Hsort & Hlen & Hperm & Hdesc & _).
  exists top, rest.
  destruct (Hdesc sample_weighted_not_nan) as [Hfull Hpre].
  repeat split; assumption.
Defined.

Section StabilityClaims.
Variable Workspace : Type.
Implicit Types (w : World Workspace) (cw fw : dict Z float).

(** A merge keeps the addresses already in the store where they are and
    appends the new ones: the key order of the store is the order in which
    the addresses were first inserted. *)
Lemma merged_keys p (r : PluginResult) (s : CandidateStore) :
  exists new, keys (merged p r s) = keys s ++ new.
Proof.
  destruct r as [pc|]; simpl; [|exists []; now rewrite app_nil_r].
  generalize (keys pc) as ks. intros ks. revert s.
  induction ks as [|k ks IH]; intros s; simpl.
  - exists []. now rewrite app_nil_r.
  - destruct (IH (merge_step p pc s k)) as [new ->].
    unfold merge_step.
    destruct (get pc k) as [v|]; [|now exists new].
    destruct (get s k) as [entry|] eqn:E; rewrite keys_set; unfold contains;
      rewrite E.
    + now exists new.
    + exists (k :: new). now rewrite <- app_assoc.
Qed.

Lemma apply_plugin_weights_inv w fw :
  apply_plugin_weights w = (inr tt, with_weighted w fw) ->
  weighted_from empty (store_of w) = Some fw.
Proof.
  rewrite apply_plugin_weights_run.
  destruct (first_unknown (store_of w)) as [p|]; [discriminate|].
  destruct (weighted_from empty (store_of w)) as [fw'|]; [|discriminate].
  intros H. apply (f_equal (fun x => candidates_weighted (self (snd x)))) in H.
  exact H.
Qed.

Lemma with_score_keys cw v (l : list (Z * float)) :
  (forall k t, In (k, t) l -> get cw k = Some t) ->
  map fst (with_score v l) = filter (has_score cw v) (map fst l).
Proof.
  unfold with_score.
  induction l as [|[k t] l IH]; intros Hl; simpl; [reflexivity|].
  unfold has_score at 1. rewrite (Hl k t) by now left.
  destruct (t =? v)%float; simpl; rewrite IH; auto;
    intros k' t' Hin; apply Hl; now right.
Qed.

(** C10. When [apply_plugin_weights] has set [candidates_weighted] to [fw]
    and no score is NaN, [sort_candidates_by_score] returns a permutation of
    the items of [fw] in descending order of score in which, for every score
    [v], the addresses whose score equals [v] come in the order they have
    among the keys of the candidate store, that is, in the order in which
    they were first inserted into it. *)
Theorem sort_candidates_by_score_stable w fw :
  wf (store_of w) ->
  apply_plugin_weights w = (inr tt, with_weighted w fw) ->
  scores_not_nan fw ->
  exists ranked,
    sort_candidates_by_score (with_weighted w fw)
    = (inr ranked, with_weighted w fw)
    /\ Permutation ranked (items fw)
    /\ descending ranked
    /\ forall v,
         map fst (with_score v ranked)
         = filter (has_score fw v) (keys (store_of w)).
Proof.
  intros Hwf Hrun Hnan. apply apply_plugin_weights_inv in Hrun.
  assert (Hkeys : keys fw = keys (store_of w))
    by exact (@weighted_from_keys (store_of w) empty fw Hwf
                (fun k _ H => H) Hrun).
  exists (sorted (@itemgetter_1 Z float) true (items fw)).
  rewrite (@sort_candidates_by_score_run _ (with_weighted w fw) fw eq_refl).
  repeat split.
  - symmetry. apply sorted_perm.
  - now apply sorted_descending.
  - intros v. rewrite sorted_with_score, <- Hkeys.
    apply with_score_keys. intros k t Hin.
    apply In_get_wf; [|exact Hin].
    unfold wf. rewrite Hkeys. exact Hwf.
Qed.

End StabilityClaims.

Lemma sample_store_ties_wf : wf Sample.store_ties.
Proof.
  unfold wf, Sample.store_ties, keys. simpl.
  repeat constructor; simpl; intuition discriminate.
Qed.

Lemma sort_candidates_by_score_stable_witness :
  exists ranked,
    sort_candidates_by_score (with_weighted Sample.world_ties Sample.weighted_ties)
    = (inr ranked, with_weighted Sample.world_ties Sample.weighted_ties)
    /\ Permutation ranked (items Sample.weighted_ties)
    /\ descending ranked
    /\ forall v,
         map fst (with_score v ranked)
         = filter (has_score Sample.weighted_ties v)
                  (keys (store_of Sample.world_ties)).
Proof.
  apply (@sort_candidates_by_score_stable unit Sample.world_ties
           Sample.weighted_ties).
  - exact sample_store_ties_wf.
  - vm_compute. reflexivity.
  - repeat constructor.
Defined.

(** The ranking of the store with a tie: the two functions of score 0.5 come
    first, in the order of the store. *)
Example sort_candidates_by_score_ties :
  outcome sort_candidates_by_score
          (with_weighted Sample.world_ties Sample.weighted_ties)
  = inr [ (0x401000%Z, 0.5%float); (0x403000%Z, 0.5%float);
          (0x402000%Z, 0.3%float) ].
Proof. vm_compute. reflexivity. Qed.

(** ** A negative count *)

(** C7. With [count = -1] and plugins that give three functions the scores
    0.7, 0.2 and -1.0, [identify_decoding_functions] raises nothing and
    returns the two best functions: a negative count is neither rejected nor
    clamped to 0, the slice [[:count]] drops the last [|count|] entries. *)
Theorem identify_decoding_functions_negative_count :
  fst (identify_decoding_functions Sample.classes tt Sample.functions (-1))
  = inr [ (0x401000%Z, 0.7%float); (0x403000%Z, 0.2%float) ].
Proof. vm_compute. reflexivity. Qed.

(** ** run_plugins and identify_decoding_functions *)

Section RunClaims.
Variable Workspace : Type.
Implicit Types (w : World Workspace) (p q : Plugin Workspace)
               (pre post l : list (Plugin Workspace)).

Lemma for_each_app (A : Type) (l1 l2 : list A)
    (body : A -> M Workspace unit) w :
  for_each (l1 ++ l2) body w
  = match for_each l1 body w with
    | (inl e, w') => (inl e, w')
    | (inr _, w') => for_each l2 body w'
    end.
Proof.
  revert w. induction l1 as [|x l1 IH]; intros w; simpl; [reflexivity|].
  unfold bind. destruct (body x w) as [[e|[]] w']; [reflexivity|apply IH].
Qed.

Lemma run_plugins_app l1 l2 functions raw_data w :
  run_plugins (l1 ++ l2) functions raw_data w
  = match run_plugins l1 functions raw_data w with
    | (inl e, w') => (inl e, w')
    | (inr _, w') => run_plugins l2 functions raw_data w'
    end.
Proof. apply for_each_app. Qed.

(** One round: the plugin raises and the round stops there, or its result
    is merged. *)
Lemma run_plugins_round q functions raw_data w :
  run_plugins [q] functions raw_data w
  = match plugin_raises raw_data q (vw (self w)) functions with
    | Some (e, cs) => (inl e, add_calls w cs)
    | None =>
        (inr tt,
         with_store (add_calls w (plugin_calls raw_data q))
           (merged (plugin_str q)
              (plugin_result raw_data q (vw (self w)) functions)
              (store_of w)))
    end.
Proof.
  unfold run_plugins, for_each, plugin_raises, plugin_result, plugin_calls.
  unfold bind at 1. unfold bind at 1. unfold get_self at 1.
  unfold bind at 1. unfold log_call at 1.
  unfold bind at 1.
  destruct (plugin_identify q (vw (self w)) functions) as [e|d];
    cbn [lift_outcome]; [reflexivity|].
  unfold ret at 1. destruct raw_data.
  - unfold bind at 1. rewrite merge_candidates_run. reflexivity.
  - unfold bind at 1. unfold get_self at 1. unfold bind at 1.
    unfold log_call at 1. unfold bind at 1. cbn [self vw calls].
    destruct (plugin_score q d (vw (self w))) as [e|sc];
      cbn [lift_outcome].
    + unfold raise, add_calls. cbn [self calls].
      now rewrite <- app_assoc.
    + unfold ret at 1. unfold bind at 1. rewrite merge_candidates_run.
      unfold ret, with_store, add_calls, store_of. cbn [self vw calls
        candidate_functions candidates_weighted].
      now rewrite <- app_assoc.
Qed.

(** Rounds that raise nothing record their calls and touch neither the
    workspace nor [candidates_weighted]. *)
Lemma run_plugins_ok pre functions raw_data :
  forall w w1,
    run_plugins pre functions raw_data w = (inr tt, w1) ->
    calls w1 = calls w ++ flat_map (plugin_calls raw_data) pre
    /\ vw (self w1) = vw (self w)
    /\ candidates_weighted (self w1) = candidates_weighted (self w).
Proof.
  induction pre as [|q pre IH]; intros w w1.
  - intros [= <-]. simpl. now rewrite app_nil_r.
  - change (q :: pre) with ([q] ++ pre).
    rewrite run_plugins_app, run_plugins_round.
    destruct (plugin_raises raw_data q (vw (self w)) functions)
      as [[e cs]|]; [discriminate|].
    intros H. destruct (IH _ _ H) as (Hc & Hv & Hw).
    rewrite Hc, Hv, Hw. cbn [flat_map app]. unfold with_store, add_calls.
    cbn [self vw calls candidates_weighted]. rewrite <- app_assoc.
    auto.
Qed.

(** C4. When the plugins of [pre] raise nothing and the next plugin [p]
    raises [e] in [identify] or in [score], [run_plugins] over
    [pre ++ p :: post] raises that same [e]; the calls made are those of
    [pre] followed by the call(s) into [p] up to the raise, so no plugin of
    [post] is called; [candidates_weighted] is not assigned; and
    [identify_decoding_functions], whose plugins are those of
    [get_all_plugins], raises [e] as well instead of returning a ranking. *)
Theorem run_plugins_propagates pre p post functions raw_data w w1 e cs :
  run_plugins pre functions raw_data w = (inr tt, w1) ->
  plugin_raises raw_data p (vw (self w1)) functions = Some (e, cs) ->
  run_plugins (pre ++ p :: post) functions raw_data w
  = (inl e, add_calls w1 cs)
  /\ calls (add_calls w1 cs)
     = calls w ++ flat_map (plugin_calls raw_data) pre ++ cs
  /\ (cs = [CallIdentify (plugin_str p)]
      \/ cs = [CallIdentify (plugin_str p); CallScore (plugin_str p)])
  /\ candidates_weighted (self (add_calls w1 cs))
     = candidates_weighted (self w)
  /\ (forall (P : PluginClasses Workspace) (vw0 : Workspace) (count : Z),
        get_all_plugins P = pre ++ p :: post ->
        raw_data = false ->
        w = fresh vw0 ->
        identify_decoding_functions P vw0 functions count
        = (inl e, add_calls w1 cs)).
Proof.
  intros Hpre Hp.
  assert (Hrun : run_plugins (pre ++ p :: post) functions raw_data w
                 = (inl e, add_calls w1 cs)).
  { rewrite run_plugins_app, Hpre.
    change (p :: post) with ([p] ++ post).
    now rewrite run_plugins_app, run_plugins_round, Hp. }
  destruct (run_plugins_ok _ _ _ _ Hpre) as (Hc & Hv & Hw).
  split; [exact Hrun|]. split; [|split; [|split]].
  - unfold add_calls. cbn [calls]. now rewrite Hc, app_assoc.
  - unfold plugin_raises in Hp.
    destruct (plugin_identify p (vw (self w1)) functions) as [e'|d].
    + injection Hp as _ <-. now left.
    + destruct raw_data; [discriminate|].
      destruct (plugin_score p d (vw (self w1))) as [e'|sc];
        [|discriminate].
      injection Hp as _ <-. now right.
  - exact Hw.
  - intros P vw0 count HP -> ->.
    unfold identify_decoding_functions, identify_body. rewrite HP.
    unfold bind at 1. now rewrite Hrun.
Qed.

End RunClaims.

Lemma run_plugins_propagates_witness :
  run_plugins (Sample.before_raising ++ Sample.raising :: Sample.after_raising)
    Sample.functions false (fresh tt)
  = (inl (OtherError "ValueError" "no such function"),
     add_calls Sample.world_before_raise
       [CallIdentify "FunctionIsThunkPlugin"])
  /\ calls (add_calls Sample.world_before_raise
              [CallIdentify "FunctionIsThunkPlugin"])
     = calls (fresh tt)
       ++ flat_map (plugin_calls false) Sample.before_raising
       ++ [CallIdentify "FunctionIsThunkPlugin"]
  /\ ([CallIdentify "FunctionIsThunkPlugin"]
      = [CallIdentify (plugin_str Sample.raising)]
      \/ [CallIdentify "FunctionIsThunkPlugin"]
         = [CallIdentify (plugin_str Sample.raising);
            CallScore (plugin_str Sample.raising)])
  /\ candidates_weighted
       (self (add_calls Sample.world_before_raise
                [CallIdentify "FunctionIsThunkPlugin"]))
     = candidates_weighted (self (fresh tt))
  /\ (forall (P : PluginClasses unit) (vw0 : unit) (count : Z),
        get_all_plugins P
        = Sample.before_raising ++ Sample.raising :: Sample.after_raising ->
        false = false ->
        fresh tt = fresh vw0 ->
        identify_decoding_functions P vw0 Sample.functions count
        = (inl (OtherError "ValueError" "no such function"),
           add_calls Sample.world_before_raise
             [CallIdentify "FunctionIsThunkPlugin"])).
Proof.
  apply (@run_plugins_propagates unit Sample.before_raising Sample.raising
           Sample.after_raising Sample.functions false (fresh tt)
           Sample.world_before_raise
           (OtherError "ValueError" "no such function")
           [CallIdentify "FunctionIsThunkPlugin"]).
  - vm_compute. reflexivity.
  - reflexivity.
Defined.

(** The whole pipeline on the plugin classes whose third plugin raises: the
    exception comes out, two plugins ran to the end, and nothing was scored. *)
Example identify_decoding_functions_raising :
  identify_decoding_functions Sample.classes_raising tt Sample.functions 10
  = (inl (OtherError "ValueError" "no such function"),
     {| self := {| vw := tt;
                   candidate_functions :=
                     [ (0x401000%Z, [("FunctionArgumentCountPlugin", 1.0%float)]);
                       (0x403000%Z, [("FunctionArgumentCountPlugin", 1.0%float)]) ];
                   candidates_weighted := None |};
        calls := [ CallIdentify "FunctionCrossReferencesToPlugin";
                   CallScore "FunctionCrossReferencesToPlugin";
                   CallIdentify "FunctionArgumentCountPlugin";
                   CallScore "FunctionArgumentCountPlugin";
                   CallIdentify "FunctionIsThunkPlugin" ] |}).
Proof. vm_compute. reflexivity. Qed.

(** ** The store stays a well-formed dict *)

Section StoreInvariant.
Variable Workspace : Type.
Implicit Types (w : World Workspace) (s : CandidateStore).

Lemma merge_step_wf p (pc : dict Z float) s f :
  wf s -> wf (merge_step p pc s f).
Proof.
  intros Hs. unfold merge_step.
  destruct (get pc f) as [v|]; [|assumption].
  destruct (get s f) as [entry|]; now apply wf_set.
Qed.

Lemma merged_wf p (r : PluginResult) s : wf s -> wf (merged p r s).
Proof.
  destruct r as [pc|]; simpl; [|auto].
  generalize (keys pc) as ks. intros ks. revert s.
  induction ks as [|k ks IH]; intros s Hs; simpl; [assumption|].
  now apply IH, merge_step_wf.
Qed.

(** Every store that [run_plugins] builds from a well-formed one, the empty
    store of a new manager in particular, is well formed. *)
Lemma run_plugins_wf (l : list (Plugin Workspace)) functions raw_data :
  forall w w1,
    wf (store_of w) ->
    run_plugins l functions raw_data w = (inr tt, w1) ->
    wf (store_of w1).
Proof.
  induction l as [|q l IH]; intros w w1 Hwf.
  - now intros [= <-].
  - change (q :: l) with ([q] ++ l).
    rewrite run_plugins_app, run_plugins_round.
    destruct (plugin_raises raw_data q (vw (self w)) functions)
      as [[e cs]|]; [discriminate|].
    apply IH. rewrite store_of_with_store. now apply merged_wf.
Qed.

Lemma fresh_wf (vw0 : Workspace) : wf (store_of (fresh vw0)).
Proof. constructor. Qed.

End StoreInvariant.

(** The scenario of three plugins over three functions, from the plugins to
    the two best functions. *)
Example identify_decoding_functions_top2 :
  fst (identify_decoding_functions Sample.classes tt Sample.functions 2)
  = inr [ (0x401000%Z, 0.7%float); (0x403000%Z, 0.2%float) ].
Proof. vm_compute. reflexivity. Qed.

Example identify_decoding_functions_count0 :
  fst (identify_decoding_functions Sample.classes tt Sample.functions 0)
  = inr [].
Proof. vm_compute. reflexivity. Qed.

(** ** The weight table *)

(** C9. [PLUGIN_WEIGHTS] binds exactly eleven plugin names, each once: the
    XOR and shift plugins to 0.5, the mov plugin to 0.3, the cross-reference
    and argument-count plugins to 0.2, the block-count, instruction-count,
    function-size and recursion plugins to 0.025, and the thunk and library
    plugins to -1.0; a name that has a weight is one of the eleven. *)
Theorem plugin_weights_table :
  wf PLUGIN_WEIGHTS
  /\ len PLUGIN_WEIGHTS = 11%nat
  /\ get PLUGIN_WEIGHTS "XORPlugin" = Some 0.5%float
  /\ get PLUGIN_WEIGHTS "ShiftPlugin" = Some 0.5%float
  /\ get PLUGIN_WEIGHTS "MovPlugin" = Some 0.3%float
  /\ get PLUGIN_WEIGHTS "FunctionCrossReferencesToPlugin" = Some 0.2%float
  /\ get PLUGIN_WEIGHTS "FunctionArgumentCountPlugin" = Some 0.2%float
  /\ get PLUGIN_WEIGHTS "FunctionBlockCountPlugin" = Some 0.025%float
  /\ get PLUGIN_WEIGHTS "FunctionInstructionCountPlugin" = Some 0.025%float
  /\ get PLUGIN_WEIGHTS "FunctionSizePlugin" = Some 0.025%float
  /\ get PLUGIN_WEIGHTS "FunctionRecursivePlugin" = Some 0.025%float
  /\ get PLUGIN_WEIGHTS "FunctionIsThunkPlugin" = Some (-1.0)%float
  /\ get PLUGIN_WEIGHTS "FunctionIsLibraryPlugin" = Some (-1.0)%float
  /\ forall name : string,
       contains PLUGIN_WEIGHTS name = true ->
       In name [ "XORPlugin"; "ShiftPlugin"; "MovPlugin";
                 "FunctionCrossReferencesToPlugin";
                 "FunctionArgumentCountPlugin"; "FunctionBlockCountPlugin";
                 "FunctionInstructionCountPlugin"; "FunctionSizePlugin";
                 "FunctionRecursivePlugin"; "FunctionIsThunkPlugin";
                 "FunctionIsLibraryPlugin" ].
Proof.
  split.
  { unfold wf, keys, PLUGIN_WEIGHTS. cbn [map fst].
    repeat (constructor; [cbn [In]; intuition discriminate|]). constructor. }
  do 12 (split; [reflexivity|]).
  intros name H. apply contains_keys in H. exact H.
Qed.

(* ================================================================= *)
(** * Further properties of the manager *)

(** ** One merge, read back *)

Section MergeMore.
Variable Workspace : Type.
Implicit Types (w : World Workspace) (s : CandidateStore) (p q : string)
               (r : PluginResult).

Lemma set_same_value (K V : Type) (HK : PyKey K) (d : dict K V) k v :
  get d k = Some v -> set d k v = d.
Proof.
  induction d as [|[k0 v0] d IH]; simpl; [discriminate|].
  destruct (key_eqb k0 k).
  - now intros [= ->].
  - intros H. now rewrite IH.
Qed.

Lemma In_set (K V : Type) (HK : PyKey K) (d : dict K V) k v x :
  In x (set d k v) -> In x d \/ x = (k, v).
Proof.
  induction d as [|[k0 v0] d IH]; simpl.
  - intros [<-|[]]. now right.
  - destruct (key_eqb_spec k0 k) as [->|Hk]; simpl.
    + intros [<-|H]; auto.
    + intros [<-|H]; auto. destruct (IH H); auto.
Qed.

Lemma contains_keys_eq (K V V' : Type) (HK : PyKey K)
    (d : dict K V) (d' : dict K V') k :
  keys d = keys d' -> contains d k = contains d' k.
Proof.
  intros E. apply eq_true_iff_eq. rewrite !contains_keys. now rewrite E.
Qed.

Lemma contains_get_None (K V : Type) (HK : PyKey K) (d : dict K V) k :
  contains d k = false <-> get d k = None.
Proof.
  unfold contains. destruct (get d k); split; congruence.
Qed.

(** Reading the store back after one merge: the merge raises nothing;
    [get_candidate_functions] then returns a store that binds an address iff
    the old store or the result did, holds the result's metric under [p]
    where the result binds the address and the old metric under [p] where it
    does not, and holds the old metric under every other name; the workspace,
    [candidates_weighted] and the plugin calls are untouched. *)
Theorem merge_candidates_read_back p r w :
  exists s',
    (merge_candidates p r ;; get_candidate_functions) w
    = (inr s', with_store w s')
    /\ (forall f, get s' f = None
                  <-> result_get r f = None /\ get (store_of w) f = None)
    /\ (forall f, metric_of s' f p
                  = match result_get r f with
                    | Some v => Some v
                    | None => metric_of (store_of w) f p
                    end)
    /\ (forall f q, q <> p -> metric_of s' f q = metric_of (store_of w) f q).
Proof.
  exists (merged p r (store_of w)).
  unfold bind at 1. rewrite merge_candidates_run. split; [reflexivity|].
  split; [|split].
  - intros f. apply merged_get_None.
  - intros f. apply merged_same.
  - intros f q Hq. now apply merged_other.
Qed.

Lemma merge_step_keys p (pc : dict Z float) s k v :
  get pc k = Some v ->
  keys (merge_step p pc s k)
  = if contains s k then keys s else keys s ++ [k].
Proof.
  intros Hv. unfold merge_step. rewrite Hv. unfold contains.
  destruct (get s k) as [entry|] eqn:E; rewrite keys_set; unfold contains;
    now rewrite E.
Qed.

Lemma merge_fold_keys p (pc : dict Z float) (ks : list Z) :
  NoDup ks ->
  (forall k, In k ks -> In k (keys pc)) ->
  forall s,
    keys (fold_left (merge_step p pc) ks s)
    = keys s ++ filter (fun f => negb (contains s f)) ks.
Proof.
  induction 1 as [|k ks Hni Hnd IH]; intros Hks s; simpl.
  - now rewrite app_nil_r.
  - destruct (get_Some_keys pc k (Hks k (or_introl eq_refl))) as [v Hv].
    rewrite IH by (intros k' Hin; apply Hks; now right).
    rewrite (@merge_step_keys p pc s k v Hv).
    destruct (contains s k) eqn:C; cbn [negb].
    + f_equal. apply filter_ext_in. intros a _. f_equal.
      apply contains_keys_eq. now rewrite (@merge_step_keys p pc s k v Hv), C.
    + rewrite <- app_assoc. cbn [app]. do 2 f_equal.
      apply filter_ext_in. intros a Ha. f_equal.
      apply eq_true_iff_eq. rewrite !contains_keys.
      rewrite (@merge_step_keys p pc s k v Hv), C, in_app_iff. simpl.
      split; [|tauto]. intros [H|[<-|[]]]; [assumption|contradiction].
Qed.

(** The key order after a merge of a well-formed result: the addresses the
    store had keep their places, and the addresses it did not have follow in
    the order of the result mapping. *)
Theorem merge_candidates_key_order p r w :
  result_wf r ->
  keys (store_of (exec (merge_candidates p r) w))
  = keys (store_of w) ++ new_addresses (store_of w) r.
Proof.
  intros Hr. unfold exec. rewrite merge_candidates_run. cbn [snd].
  rewrite store_of_with_store.
  destruct r as [pc|]; simpl.
  - apply merge_fold_keys; [exact Hr|auto].
  - now rewrite app_nil_r.
Qed.

Lemma merge_step_fixed p (pc : dict Z float) s k v :
  get pc k = Some v -> metric_of s k p = Some v -> merge_step p pc s k = s.
Proof.
  intros Hv Hm. unfold merge_step. rewrite Hv. unfold metric_of in Hm.
  destruct (get s k) as [entry|] eqn:E; [|discriminate].
  rewrite (set_same_value _ entry p Hm). now apply set_same_value.
Qed.

Lemma merge_fold_fixed p (pc : dict Z float) (ks : list Z) s :
  (forall k, In k ks -> exists v, get pc k = Some v /\ metric_of s k p = Some v) ->
  fold_left (merge_step p pc) ks s = s.
Proof.
  induction ks as [|k ks IH]; intros Hks; simpl; [reflexivity|].
  destruct (Hks k (or_introl eq_refl)) as (v & Hv & Hm).
  rewrite (@merge_step_fixed p pc s k v Hv Hm).
  apply IH. intros k' Hin. apply Hks. now right.
Qed.

Lemma merged_twice p r s : merged p r (merged p r s) = merged p r s.
Proof.
  destruct r as [pc|]; [|reflexivity].
  change (fold_left (merge_step p pc) (keys pc) (merged p (Some pc) s)
          = merged p (Some pc) s).
  apply merge_fold_fixed. intros k Hin.
  destruct (get_Some_keys pc k Hin) as [v Hv].
  exists v. split; [assumption|].
  rewrite merged_same. cbn [result_get]. now rewrite Hv.
Qed.

(** Merging the same result twice under the same name is the same as merging
    it once: the second call returns what the first would and leaves the
    store, the order of its keys included, as the first left it. *)
Theorem merge_candidates_idempotent p r w :
  (merge_candidates p r ;; merge_candidates p r) w = merge_candidates p r w.
Proof.
  rewrite merge_twice_run, merge_candidates_run, merged_twice.
  destruct (result_truthy r) eqn:T; [reflexivity|].
  do 3 f_equal.
  destruct r as [[|x pc]|]; [reflexivity|discriminate|reflexivity].
Qed.

End MergeMore.

(** ** Rounds of plugins *)

Section RunMore.
Variable Workspace : Type.
Implicit Types (w : World Workspace) (s : CandidateStore)
               (l : list (Plugin Workspace)).

(** Running the plugins in two batches is running them in one. *)
Theorem run_plugins_batches l1 l2 functions raw_data w :
  run_plugins (l1 ++ l2) functions raw_data w
  = (run_plugins l1 functions raw_data ;; run_plugins l2 functions raw_data) w.
Proof.
  rewrite run_plugins_app. unfold bind.
  destruct (run_plugins l1 functions raw_data w) as [[e|[]] w']; reflexivity.
Qed.

(** Whatever the rounds do, they leave the workspace and
    [candidates_weighted] alone, and the store changes by merges under the
    names of the plugins only: a property of stores that every such merge
    keeps holds after the rounds, whether they end or raise. *)
Lemma run_plugins_preserves (P : CandidateStore -> Prop) l functions raw_data :
  (forall q r s, In q l -> P s -> P (merged (plugin_str q) r s)) ->
  forall w o w1,
    P (store_of w) ->
    run_plugins l functions raw_data w = (o, w1) ->
    P (store_of w1)
    /\ vw (self w1) = vw (self w)
    /\ candidates_weighted (self w1) = candidates_weighted (self w).
Proof.
  induction l as [|q l IH]; intros HP w o w1 Hw.
  - intros [= <- <-]. auto.
  - change (q :: l) with ([q] ++ l).
    rewrite run_plugins_app, run_plugins_round.
    destruct (plugin_raises raw_data q (vw (self w)) functions) as [[e cs]|].
    + intros [= <- <-]. auto.
    + intros H. apply IH in H.
      * exact H.
      * intros q' r s Hin. apply HP. now right.
      * rewrite store_of_with_store. apply HP; [now left|assumption].
Qed.

Lemma set_not_nil (K V : Type) (HK : PyKey K) (d : dict K V) k v :
  set d k v <> [].
Proof. destruct d as [|[k0 v0] d]; simpl; [|destruct (key_eqb k0 k)]; discriminate. Qed.

Lemma entry_ok_set names (entry : CandidateEntry) p v :
  In p names -> (entry = [] \/ entry_ok names entry) ->
  entry_ok names (set entry p v).
Proof.
  intros Hp He. split; [|split].
  - apply wf_set. destruct He as [->|[H _]]; [constructor|exact H].
  - apply set_not_nil.
  - intros q. rewrite keys_set.
    destruct (contains entry p); [|rewrite in_app_iff].
    + destruct He as [->|(_ & _ & H)]; [intros []|apply H].
    + intros [H|[<-|[]]]; [|assumption].
      destruct He as [->|(_ & _ & H')]; [destruct H|now apply H'].
Qed.

Lemma merge_step_ok names p (pc : dict Z float) s f :
  In p names -> store_ok names s -> store_ok names (merge_step p pc s f).
Proof.
  intros Hp [Hwf He]. split; [now apply merge_step_wf|].
  unfold merge_step. destruct (get pc f) as [v|]; [|exact He].
  intros f' entry' Hin.
  destruct (get s f) as [entry|] eqn:E;
    apply In_set in Hin as [Hin|[= -> ->]]; try now apply (He f').
  - apply entry_ok_set; [assumption|]. right.
    apply (He f). now apply get_In.
  - apply (@entry_ok_set names [] p v); [assumption|]. now left.
Qed.

Lemma merged_ok names p (r : PluginResult) s :
  In p names -> store_ok names s -> store_ok names (merged p r s).
Proof.
  intros Hp. destruct r as [pc|]; simpl; [|auto].
  generalize (keys pc) as ks. intros ks. revert s.
  induction ks as [|k ks IH]; intros s Hs; simpl; [assumption|].
  now apply IH, merge_step_ok.
Qed.

(** The store of a manager that [run_plugins] has filled, whether the rounds
    ended or a plugin raised on the way, is a well-formed dict; each of its
    entries is a well-formed dict that binds at least one plugin name, and
    binds only names of the plugins given. *)
Theorem run_plugins_store_ok l functions raw_data (vw0 : Workspace) o w1 :
  run_plugins l functions raw_data (fresh vw0) = (o, w1) ->
  store_ok (map (@plugin_str Workspace) l) (store_of w1).
Proof.
  intros H.
  apply (@run_plugins_preserves (store_ok (map (@plugin_str Workspace) l))
           l functions raw_data) in H.
  - apply H.
  - intros q r s Hin. apply merged_ok. now apply in_map.
  - split; [constructor|intros f entry []].
Qed.

(** With [raw_data] set, [run_plugins] calls no plugin's [score]: every call
    it makes, up to the end or up to a raise, is a call of [identify]. *)
Theorem run_plugins_raw_never_scores l functions :
  forall w o w1,
    run_plugins l functions true w = (o, w1) ->
    exists cs, calls w1 = calls w ++ cs /\ forallb is_identify cs = true.
Proof.
  induction l as [|q l IH]; intros w o w1.
  - intros [= <- <-]. exists []. now rewrite app_nil_r.
  - change (q :: l) with ([q] ++ l).
    rewrite run_plugins_app, run_plugins_round.
    unfold plugin_raises, plugin_calls.
    destruct (plugin_identify q (vw (self w)) functions) as [e|d].
    + intros [= <- <-]. now exists [CallIdentify (plugin_str q)].
    + intros H. apply IH in H as (cs & Hc & Hcs).
      exists (CallIdentify (plugin_str q) :: cs). rewrite Hc.
      unfold with_store, add_calls. cbn [calls].
      rewrite <- app_assoc. split; [reflexivity|exact Hcs].
Qed.

(** When no plugin raises, the rounds end, record the calls of every plugin
    in order, and leave the store [store_after]. *)
Lemma run_plugins_success l functions raw_data (vw0 : Workspace) :
  (forall q, In q l -> plugin_raises raw_data q vw0 functions = None) ->
  forall w,
    vw (self w) = vw0 ->
    run_plugins l functions raw_data w
    = (inr tt,
       with_store (add_calls w (flat_map (plugin_calls raw_data) l))
         (store_after raw_data vw0 functions l (store_of w))).
Proof.
  induction l as [|q l IH]; intros Hl w Hvw.
  - simpl. unfold ret, add_calls, with_store, store_of.
    rewrite app_nil_r. destruct w as [[v0 s0 c0] cl]. reflexivity.
  - change (q :: l) with ([q] ++ l).
    rewrite run_plugins_app, run_plugins_round, Hvw.
    rewrite (Hl q (or_introl eq_refl)).
    rewrite IH; [|intros q' Hin; apply Hl; now right|exact Hvw].
    unfold with_store, add_calls, store_of.
    cbn [self calls vw candidate_functions candidates_weighted
         flat_map store_after fold_left app].
    now rewrite <- app_assoc.
Qed.

(** [run_plugins] never assigns [candidates_weighted]: in a manager filled by
    [run_plugins] alone, with no call of [apply_plugin_weights],
    [sort_candidates_by_score] and [get_top_candidate_functions] raise
    [AttributeError] and change nothing. *)
Theorem ranking_before_weighting_raises l functions raw_data
    (vw0 : Workspace) o w1 n :
  run_plugins l functions raw_data (fresh vw0) = (o, w1) ->
  sort_candidates_by_score w1 = (inl AttributeError, w1)
  /\ get_top_candidate_functions n w1 = (inl AttributeError, w1).
Proof.
  intros H.
  apply (@run_plugins_preserves (fun _ => True) l functions raw_data) in H;
    [|auto|exact I].
  destruct H as (_ & _ & Hcw). cbn in Hcw.
  assert (Hs : sort_candidates_by_score w1 = (inl AttributeError, w1)).
  { unfold sort_candidates_by_score, bind, get_self. now rewrite Hcw. }
  split; [exact Hs|].
  unfold get_top_candidate_functions, bind. now rewrite Hs.
Qed.

End RunMore.

(** ** Weighting and ranking, further *)

Section RankMore.
Variable Workspace : Type.
Implicit Types (w : World Workspace) (s : CandidateStore) (cw fw : dict Z float).

(** Calling [apply_plugin_weights] a second time changes nothing: it raises
    the same exception or leaves the same [candidates_weighted]. *)
Theorem apply_plugin_weights_idempotent w :
  (apply_plugin_weights ;; apply_plugin_weights) w = apply_plugin_weights w.
Proof.
  unfold bind. rewrite apply_plugin_weights_run.
  destruct (first_unknown (store_of w)) as [p|] eqn:U; [reflexivity|].
  destruct (weighted_from empty (store_of w)) as [fw|] eqn:F; [|reflexivity].
  rewrite apply_plugin_weights_run.
  change (store_of (with_weighted w fw)) with (store_of w).
  rewrite U, F. reflexivity.
Qed.

Lemma slice_to_firstn (A : Type) (l : list A) n :
  exists k, slice_to l n = firstn k l.
Proof. unfold slice_to. destruct (n <? 0)%Z; eauto. Qed.

Lemma In_firstn_In (A : Type) k (l : list A) x : In x (firstn k l) -> In x l.
Proof.
  intros H. rewrite <- (firstn_skipn k l). apply in_or_app. now left.
Qed.

Lemma NoDup_map_firstn (A B : Type) (g : A -> B) k (l : list A) :
  NoDup (map g l) -> NoDup (map g (firstn k l)).
Proof.
  intros H. rewrite <- (firstn_skipn k l), map_app in H.
  now apply NoDup_app_remove_r in H.
Qed.

(** What a slice of the ranking of the scores of a well-formed store is
    like. *)
Lemma top_facts s fw n :
  wf s -> weighted_from empty s = Some fw ->
  let top := slice_to (sorted (@itemgetter_1 Z float) true (items fw)) n in
  NoDup (map fst top)
  /\ (forall f t, In (f, t) top -> get fw f = Some t /\ In f (keys s))
  /\ ((0 <= n)%Z -> List.length top = Nat.min (Z.to_nat n) (len s)).
Proof.
  intros Hwf Hfw top.
  assert (Hkeys : keys fw = keys s)
    by exact (@weighted_from_keys s empty fw Hwf (fun k _ H => H) Hfw).
  assert (Hwfw : wf fw) by (unfold wf; now rewrite Hkeys).
  pose proof (sorted_perm (items fw)) as Hperm.
  destruct (slice_to_firstn
              (sorted (@itemgetter_1 Z float) true (items fw)) n) as [k Hk].
  split; [|split].
  - unfold top. rewrite Hk. apply NoDup_map_firstn.
    apply (Permutation_NoDup (Permutation_map fst Hperm)). exact Hwfw.
  - intros f t Hin. unfold top in Hin. rewrite Hk in Hin.
    apply In_firstn_In in Hin.
    apply (Permutation_in _ (Permutation_sym Hperm)) in Hin.
    split; [now apply In_get_wf|].
    rewrite <- Hkeys. change f with (fst (f, t)). now apply in_map.
  - intros Hn. unfold top, slice_to.
    destruct (Z.ltb_spec n 0) as [Hneg|_]; [lia|].
    rewrite length_firstn, sorted_length. unfold len, items.
    f_equal. unfold keys in Hkeys.
    rewrite <- (length_map fst fw), Hkeys. apply length_map.
Qed.

(** After [apply_plugin_weights] on a well-formed store, for every [n],
    negative ones included, [get_top_candidate_functions(n)] raises nothing
    and returns pairs with pairwise distinct addresses, each an address of
    the candidate store paired with its score in [candidates_weighted]. *)
Theorem top_candidates_distinct w fw n :
  wf (store_of w) ->
  apply_plugin_weights w = (inr tt, with_weighted w fw) ->
  exists top,
    get_top_candidate_functions n (with_weighted w fw)
    = (inr top, with_weighted w fw)
    /\ NoDup (map fst top)
    /\ forall f t, In (f, t) top ->
                   get fw f = Some t /\ In f (keys (store_of w)).
Proof.
  intros Hwf Hrun. apply apply_plugin_weights_inv in Hrun.
  eexists. split.
  - apply get_top_candidate_functions_run. reflexivity.
  - destruct (@top_facts (store_of w) fw n Hwf Hrun) as (Hnd & Hin & _).
    split; assumption.
Qed.

(** A smaller count gives a prefix of what a larger count gives. *)
Theorem top_candidates_prefix w cw n m :
  candidates_weighted (self w) = Some cw ->
  (0 <= n <= m)%Z ->
  exists top_n top_m,
    get_top_candidate_functions n w = (inr top_n, w)
    /\ get_top_candidate_functions m w = (inr top_m, w)
    /\ top_n = firstn (Z.to_nat n) top_m.
Proof.
  intros Hcw Hnm. eexists. eexists.
  split; [apply (get_top_candidate_functions_run w n Hcw)|].
  split; [apply (get_top_candidate_functions_run w m Hcw)|].
  unfold slice_to.
  destruct (Z.ltb_spec n 0) as [Hneg|_]; [lia|].
  destruct (Z.ltb_spec m 0) as [Hneg|_]; [lia|].
  rewrite firstn_firstn. f_equal. lia.
Qed.

End RankMore.

(** ** The whole of identify_decoding_functions *)

Section PipelineMore.
Variable Workspace : Type.
Implicit Types (w : World Workspace) (s : CandidateStore)
               (l : list (Plugin Workspace)) (P : PluginClasses Workspace).

Lemma store_after_ok names raw_data (vw0 : Workspace) functions l :
  (forall q, In q l -> In (plugin_str q) names) ->
  forall s, store_ok names s ->
            store_ok names (store_after raw_data vw0 functions l s).
Proof.
  unfold store_after.
  induction l as [|q l IH]; intros Hl s Hs; simpl; [assumption|].
  apply IH; [intros q' Hin; apply Hl; now right|].
  apply merged_ok; [apply Hl; now left|assumption].
Qed.

Lemma store_ok_known names s :
  (forall q, In q names -> contains PLUGIN_WEIGHTS q = true) ->
  store_ok names s -> store_known s = true.
Proof.
  intros Hn [_ He]. unfold store_known, items.
  apply forallb_forall. intros [f entry] Hin. cbn [snd].
  apply forallb_forall. intros [q m] Hq. cbn [fst].
  destruct (He f entry Hin) as (_ & _ & Hnames).
  apply Hn, Hnames. change q with (fst (q, m)). now apply in_map.
Qed.

(** The pipeline once the rounds have ended. *)
Lemma identify_after_rounds P (vw0 : Workspace) functions count :
  (forall q, In q (get_all_plugins P) ->
             plugin_raises false q vw0 functions = None) ->
  identify_decoding_functions P vw0 functions count
  = (apply_plugin_weights ;; get_top_candidate_functions count)
      (with_store
         (add_calls (fresh vw0)
            (flat_map (plugin_calls false) (get_all_plugins P)))
         (store_after false vw0 functions (get_all_plugins P) empty)).
Proof.
  intros Hq. unfold identify_decoding_functions, identify_body.
  unfold bind at 1.
  now rewrite (@run_plugins_success Workspace (get_all_plugins P) functions
                 false vw0 Hq (fresh vw0) eq_refl).
Qed.

(** When no plugin raises and the name of every plugin has a weight,
    [identify_decoding_functions] raises nothing, for any count: every plugin
    has been called once, [identify] then [score], in the order of
    [get_all_plugins]; the addresses returned are pairwise distinct and are
    addresses of the candidate store; and for [count >= 0] exactly
    [min(count, len(store))] pairs are returned. *)
Theorem identify_decoding_functions_succeeds P (vw0 : Workspace)
    functions count :
  (forall q, In q (get_all_plugins P) ->
             plugin_raises false q vw0 functions = None) ->
  (forall q, In q (get_all_plugins P) ->
             contains PLUGIN_WEIGHTS (plugin_str q) = true) ->
  exists top w',
    identify_decoding_functions P vw0 functions count = (inr top, w')
    /\ calls w' = flat_map (plugin_calls false) (get_all_plugins P)
    /\ store_of w' = store_after false vw0 functions (get_all_plugins P) empty
    /\ NoDup (map fst top)
    /\ (forall f t, In (f, t) top -> In f (keys (store_of w')))
    /\ ((0 <= count)%Z ->
        List.length top = Nat.min (Z.to_nat count) (len (store_of w'))).
Proof.
  intros Hraise Hnames. rewrite (@identify_after_rounds P vw0 functions count Hraise).
  set (s := store_after false vw0 functions (get_all_plugins P) empty).
  set (w1 := with_store _ s).
  assert (Hok : store_ok (map (@plugin_str Workspace) (get_all_plugins P)) s).
  { apply store_after_ok; [intros q Hin; now apply in_map|].
    split; [constructor|intros f entry []]. }
  assert (Hknown : store_known s = true).
  { apply (store_ok_known (names := map (@plugin_str Workspace)
                                        (get_all_plugins P))); [|exact Hok].
    intros q Hin. apply in_map_iff in Hin as (q0 & <- & Hin0). auto. }
  apply first_unknown_None in Hknown.
  destruct (weighted_from_known s empty Hknown) as [fw Hfw].
  exists (slice_to (sorted (@itemgetter_1 Z float) true (items fw)) count),
         (with_weighted w1 fw).
  split.
  - unfold bind. rewrite apply_plugin_weights_run.
    change (store_of w1) with s. rewrite Hknown, Hfw.
    apply get_top_candidate_functions_run. reflexivity.
  - split; [reflexivity|]. split; [reflexivity|].
    change (store_of (with_weighted w1 fw)) with s.
    destruct (@top_facts s fw count (proj1 Hok) Hfw) as (Hnd & Hin & Hlen).
    split; [exact Hnd|]. split; [|exact Hlen].
    intros f t Ht. now apply (Hin f t).
Qed.

Lemma merged_keeps p (r : PluginResult) s f q :
  (exists m, metric_of s f q = Some m) ->
  exists m, metric_of (merged p r s) f q = Some m.
Proof.
  intros [m Hm]. destruct (string_dec q p) as [->|Hq].
  - rewrite merged_same. destruct (result_get r f); eauto.
  - rewrite merged_other by assumption. eauto.
Qed.

Lemma store_after_keeps raw_data (vw0 : Workspace) functions l f q :
  forall s,
    (exists m, metric_of s f q = Some m) ->
    exists m, metric_of (store_after raw_data vw0 functions l s) f q = Some m.
Proof.
  unfold store_after.
  induction l as [|q0 l IH]; intros s Hs; simpl; [assumption|].
  now apply IH, merged_keeps.
Qed.

Lemma store_after_binds raw_data (vw0 : Workspace) functions l q0 f m :
  In q0 l ->
  result_get (plugin_result raw_data q0 vw0 functions) f = Some m ->
  forall s,
    exists m', metric_of (store_after raw_data vw0 functions l s) f
                 (plugin_str q0) = Some m'.
Proof.
  intros Hin Hm. induction l as [|q l IH]; [destruct Hin|].
  intros s. destruct Hin as [->|Hin].
  - change (store_after raw_data vw0 functions (q0 :: l) s)
      with (store_after raw_data vw0 functions l
              (merged (plugin_str q0)
                 (plugin_result raw_data q0 vw0 functions) s)).
    apply store_after_keeps. exists m. now rewrite merged_same, Hm.
  - apply (IH Hin).
Qed.

(** When no plugin raises but some plugin whose name has no weight reports
    at least one function, [identify_decoding_functions] raises
    [Exception("Plugin weight not found: " + p')] for a name [p'] without a
    weight, whatever the count and whatever the other plugins report. *)
Theorem identify_decoding_functions_unweighted_plugin P (vw0 : Workspace)
    functions count q0 f m :
  (forall q, In q (get_all_plugins P) ->
             plugin_raises false q vw0 functions = None) ->
  In q0 (get_all_plugins P) ->
  contains PLUGIN_WEIGHTS (plugin_str q0) = false ->
  result_get (plugin_result false q0 vw0 functions) f = Some m ->
  exists p',
    contains PLUGIN_WEIGHTS p' = false
    /\ fst (identify_decoding_functions P vw0 functions count)
       = inl (Exception ("Plugin weight not found: " ++ p')%string).
Proof.
  intros Hraise Hin Hc Hm. rewrite (@identify_after_rounds P vw0 functions count Hraise).
  set (s := store_after false vw0 functions (get_all_plugins P) empty).
  set (w1 := with_store _ s).
  destruct (@store_after_binds false vw0 functions (get_all_plugins P)
              q0 f m Hin Hm empty) as [m' Hm'].
  fold s in Hm'. unfold metric_of in Hm'.
  destruct (get s f) as [entry|] eqn:E; [|discriminate].
  apply get_In in E. apply get_In in Hm'.
  destruct (first_unknown s) as [p'|] eqn:U.
  - exists p'. split; [exact (proj1 (@first_unknown_Some s p' U))|].
    unfold bind. rewrite apply_plugin_weights_run.
    change (store_of w1) with s. now rewrite U.
  - apply first_unknown_None in U.
    rewrite (@store_known_In s f entry (plugin_str q0) m' U E Hm') in Hc.
    discriminate.
Qed.

Lemma merged_falsy p (r : PluginResult) s :
  result_truthy r = false -> merged p r s = s.
Proof. destruct r as [[|x pc]|]; [reflexivity|discriminate|reflexivity]. Qed.

(** When no plugin raises and every plugin returns an empty mapping or
    [None], [identify_decoding_functions] returns the empty list for every
    count, negative ones included. *)
Theorem identify_decoding_functions_nothing_found P (vw0 : Workspace)
    functions count :
  (forall q, In q (get_all_plugins P) ->
             plugin_raises false q vw0 functions = None
             /\ result_truthy (plugin_result false q vw0 functions) = false) ->
  fst (identify_decoding_functions P vw0 functions count) = inr [].
Proof.
  intros Hq.
  rewrite (@identify_after_rounds P vw0 functions count
             (fun q Hin => proj1 (Hq q Hin))).
  assert (Hs : store_after false vw0 functions (get_all_plugins P) empty
               = empty).
  { unfold store_after. generalize (fun q Hin => proj2 (Hq q Hin)).
    generalize (get_all_plugins P) as l.
    induction l as [|q l IH]; intros Hl; simpl; [reflexivity|].
    rewrite merged_falsy by (apply Hl; now left).
    apply IH. intros q' Hin. apply Hl. now right. }
  rewrite Hs.
  set (w1 := with_store _ empty).
  unfold bind. rewrite apply_plugin_weights_run.
  change (store_of w1) with (@empty Z CandidateEntry).
  cbn [first_unknown weighted_from].
  unfold get_top_candidate_functions, sort_candidates_by_score, bind,
    get_self, ret, slice_to.
  cbn [with_weighted self candidates_weighted items sorted fold_right empty
       fst].
  destruct (count <? 0)%Z; simpl; rewrite ?firstn_nil; reflexivity.
Qed.

End PipelineMore.

(** ** The further properties on the sample managers *)

Lemma merge_candidates_key_order_witness :
  keys (store_of
          (exec (merge_candidates "MovPlugin"
                   (Some [ (0x404000%Z, 1.0%float); (0x402000%Z, 0.5%float);
                           (0x405000%Z, 0.25%float) ]))
             Sample.world))
  = [0x401000%Z; 0x402000%Z; 0x403000%Z] ++ [0x404000%Z; 0x405000%Z].
Proof.
  apply (@merge_candidates_key_order unit "MovPlugin"
           (Some [ (0x404000%Z, 1.0%float); (0x402000%Z, 0.5%float);
                   (0x405000%Z, 0.25%float) ])
           Sample.world).
  unfold result_wf, wf, keys. simpl.
  repeat constructor; simpl; intuition discriminate.
Defined.

Lemma run_plugins_store_ok_witness :
  store_ok (map (@plugin_str unit) (get_all_plugins Sample.classes_raising))
    (store_of
       (exec (run_plugins (get_all_plugins Sample.classes_raising)
                Sample.functions false) (fresh tt))).
Proof.
  apply (@run_plugins_store_ok unit (get_all_plugins Sample.classes_raising)
           Sample.functions false tt
           (outcome (run_plugins (get_all_plugins Sample.classes_raising)
                       Sample.functions false) (fresh tt))).
  apply surjective_pairing.
Defined.

Lemma run_plugins_raw_never_scores_witness :
  exists cs,
    calls (exec (run_plugins SampleMore.raw_plugins Sample.functions true)
             (fresh tt))
    = calls (fresh tt) ++ cs
    /\ forallb is_identify cs = true.
Proof.
  apply (@run_plugins_raw_never_scores unit SampleMore.raw_plugins
           Sample.functions (fresh tt)
           (outcome (run_plugins SampleMore.raw_plugins Sample.functions true)
              (fresh tt))).
  apply surjective_pairing.
Defined.

Lemma ranking_before_weighting_raises_witness :
  sort_candidates_by_score
    (exec (run_plugins (get_all_plugins Sample.classes) Sample.functions false)
       (fresh tt))
  = (inl AttributeError,
     exec (run_plugins (get_all_plugins Sample.classes) Sample.functions false)
       (fresh tt))
  /\ get_top_candidate_functions 10
       (exec (run_plugins (get_all_plugins Sample.classes) Sample.functions
                false) (fresh tt))
     = (inl AttributeError,
        exec (run_plugins (get_all_plugins Sample.classes) Sample.functions
                false) (fresh tt)).
Proof.
  apply (@ranking_before_weighting_raises unit
           (get_all_plugins Sample.classes) Sample.functions false tt
           (outcome (run_plugins (get_all_plugins Sample.classes)
                       Sample.functions false) (fresh tt))).
  apply surjective_pairing.
Defined.

Lemma top_candidates_distinct_witness :
  exists top,
    get_top_candidate_functions (-1)
      (with_weighted Sample.world Sample.weighted)
    = (inr top, with_weighted Sample.world Sample.weighted)
    /\ NoDup (map fst top)
    /\ forall f t, In (f, t) top ->
                   get Sample.weighted f = Some t
                   /\ In f (keys (store_of Sample.world)).
Proof.
  apply (@top_candidates_distinct unit Sample.world Sample.weighted (-1)%Z).
  - exact sample_store_wf.
  - vm_compute. reflexivity.
Defined.

Lemma top_candidates_prefix_witness :
  exists top_n top_m,
    get_top_candidate_functions 1 Sample.world_weighted
    = (inr top_n, Sample.world_weighted)
    /\ get_top_candidate_functions 2 Sample.world_weighted
       = (inr top_m, Sample.world_weighted)
    /\ top_n = firstn (Z.to_nat 1) top_m.
Proof.
  apply (@top_candidates_prefix unit Sample.world_weighted Sample.weighted
           1%Z 2%Z).
  - reflexivity.
  - lia.
Defined.

Lemma get_top_candidate_functions_negative_witness :
  get_top_candidate_functions (-1) Sample.world_weighted
  = (inr (firstn (len Sample.weighted - Z.to_nat (- -1))
            (sorted (@itemgetter_1 Z float) true (items Sample.weighted))),
     Sample.world_weighted).
Proof.
  apply (@get_top_candidate_functions_negative unit Sample.world_weighted
           Sample.weighted (-1)%Z).
  - reflexivity.
  - lia.
Defined.

Lemma sample_classes_in (P : PluginClasses unit) (Q : Plugin unit -> Prop) :
  Q (FunctionCrossReferencesToPlugin P) -> Q (FunctionArgumentCountPlugin P) ->
  Q (FunctionIsThunkPlugin P) -> Q (FunctionBlockCountPlugin P) ->
  Q (FunctionInstructionCountPlugin P) -> Q (FunctionSizePlugin P) ->
  Q (FunctionRecursivePlugin P) -> Q (FunctionIsLibraryPlugin P) ->
  Q (XORPlugin P) -> Q (ShiftPlugin P) -> Q (MovPlugin P) ->
  forall q, In q (get_all_plugins P) -> Q q.
Proof.
  intros H1 H2 H3 H4 H5 H6 H7 H8 H9 H10 H11 q Hin. simpl in Hin.
  repeat (destruct Hin as [<-|Hin]; [assumption|]). destruct Hin.
Defined.

Lemma identify_decoding_functions_succeeds_witness :
  exists top w',
    identify_decoding_functions Sample.classes tt Sample.functions 2
    = (inr top, w')
    /\ calls w' = flat_map (plugin_calls false) (get_all_plugins Sample.classes)
    /\ store_of w'
       = store_after false tt Sample.functions (get_all_plugins Sample.classes)
           empty
    /\ NoDup (map fst top)
    /\ (forall f t, In (f, t) top -> In f (keys (store_of w')))
    /\ ((0 <= 2)%Z ->
        List.length top = Nat.min (Z.to_nat 2) (len (store_of w'))).
Proof.
  apply (@identify_decoding_functions_succeeds unit Sample.classes tt
           Sample.functions 2%Z).
  - apply sample_classes_in; reflexivity.
  - apply sample_classes_in; reflexivity.
Defined.

Lemma identify_decoding_functions_unweighted_plugin_witness :
  exists p',
    contains PLUGIN_WEIGHTS p' = false
    /\ fst (identify_decoding_functions SampleMore.classes_unweighted tt
              Sample.functions 0)
       = inl (Exception ("Plugin weight not found: " ++ p')%string).
Proof.
  apply (@identify_decoding_functions_unweighted_plugin unit
           SampleMore.classes_unweighted tt Sample.functions 0%Z
           SampleMore.entropy_plugin 0x401000%Z 1.0%float).
  - apply sample_classes_in; reflexivity.
  - simpl. do 10 right. left. reflexivity.
  - reflexivity.
  - reflexivity.
Defined.

Lemma identify_decoding_functions_nothing_found_witness :
  fst (identify_decoding_functions SampleMore.classes_silent tt
         Sample.functions (-3))
  = inr [].
Proof.
  apply (@identify_decoding_functions_nothing_found unit
           SampleMore.classes_silent tt Sample.functions (-3)%Z).
  apply sample_classes_in; split; reflexivity.
Defined.

(** ** Scores that are NaN *)

(** A score is NaN as soon as a function has an infinite metric under a
    plugin of positive weight and under one of negative weight. *)
Example apply_plugin_weights_nan :
  apply_plugin_weights SampleNaN.world
  = (inr tt, with_weighted SampleNaN.world SampleNaN.weighted).
Proof. vm_compute. reflexivity. Qed.

(** C3, as stated, fails on a mapping with a NaN score.  For the scores
    1.0, NaN and 2.0, in this order, [get_top_candidate_functions(3)] returns
    the three pairs in the order of the mapping: no entry is less than the
    entry after it, so the sort moves nothing.  The sequence returned is not
    in descending order of score: its first score, 1.0, is less than its
    third, 2.0. *)
Lemma get_top_candidate_functions_nan_not_descending :
  get_top_candidate_functions 3 SampleNaN.world_weighted
  = (inr [ (0x401000%Z, 1.0%float); (0x402000%Z, nan);
           (0x403000%Z, 2.0%float) ],
     SampleNaN.world_weighted)
  /\ ~ descending [ (0x401000%Z, 1.0%float); (0x402000%Z, nan);
                    (0x403000%Z, 2.0%float) ]
  /\ (1.0 <? 2.0)%float = true.
Proof.
  split; [vm_compute; reflexivity|]. split; [|reflexivity].
  unfold descending. intros H.
  inversion H as [|x l _ Hall]; subst.
  inversion Hall as [|y l' Hnan _]; subst.
  cbn [snd] in Hnan. vm_compute in Hnan. discriminate.
Qed.

(** The same ranking comes out of the whole pipeline, from plugins that
    report an infinite metric. *)
Example identify_decoding_functions_nan :
  fst (identify_decoding_functions SampleNaN.classes tt Sample.functions 3)
  = inr [ (0x401000%Z, 1.0%float); (0x402000%Z, nan);
          (0x403000%Z, 2.0%float) ].
Proof. vm_compute. reflexivity. Qed.

(** C10, as stated, fails on a mapping with a NaN score.  The store gives
    its four functions the scores 1.0, NaN, 5.0 and 1.0;
    [sort_candidates_by_score] returns them in the order of the store, which
    is no descending sort: the function of score 5.0 is ranked after one of
    score 1.0. *)
Lemma sort_candidates_by_score_nan_not_sorted :
  apply_plugin_weights SampleNaN.world_ties
  = (inr tt, with_weighted SampleNaN.world_ties SampleNaN.weighted_ties)
  /\ sort_candidates_by_score
       (with_weighted SampleNaN.world_ties SampleNaN.weighted_ties)
     = (inr [ (0x401000%Z, 1.0%float); (0x402000%Z, nan);
              (0x403000%Z, 5.0%float); (0x404000%Z, 1.0%float) ],
        with_weighted SampleNaN.world_ties SampleNaN.weighted_ties)
  /\ ~ descending [ (0x401000%Z, 1.0%float); (0x402000%Z, nan);
                    (0x403000%Z, 5.0%float); (0x404000%Z, 1.0%float) ]
  /\ (1.0 <? 5.0)%float = true.
Proof.
  split; [vm_compute; reflexivity|].
  split; [vm_compute; reflexivity|]. split; [|reflexivity].
  unfold descending. intros H.
  inversion H as [|x l _ Hall]; subst.
  inversion Hall as [|y l' Hnan _]; subst.
  cbn [snd] in Hnan. vm_compute in Hnan. discriminate.
Qed.
